(** * Terraform AWS provider: resource handlers

    A shallow embedding of three resources of the provider and of the
    helpers they lean on:

    - [macie2]: [aws_macie2_organization_admin_account]
      (internal/service/macie2/organization_admin_account.go);
    - [lexv2models]: the Lex V2 slot framework resource;
    - [grafana]: the Grafana workspace SAML configuration resource.

    Go pointers are [option]s, a nil dereference is the outcome [Panic],
    the Go [error] interface is an [option] over the errors the handlers
    can tell apart, and every AWS call a handler makes is appended to a
    log so that the requests a run issues can be compared. *)

From Stdlib Require Import ZArith NArith Lia String Ascii List Bool.
From stdpp Require Import base decidable option list strings gmap.

Import ListNotations.


(** ** Go runtime values *)

(** The concrete error values the handlers distinguish.  [errors.As]
    reaches through [%w] wrapping, which [Errorf] records. *)
#[warnings="-register-all"] Inductive Err : Type :=
| ResourceNotFoundException (Message : string)
    (* *awstypes.ResourceNotFoundException *)
| APIError (Code Message : string)
    (* any other smithy.APIError, by its ErrorCode() and ErrorMessage() *)
| TimeoutError (LastError : option Err)
    (* *retry.TimeoutError *)
| NotFoundError (LastError : option Err)
    (* *retry.NotFoundError *)
| Errorf (format : string) (wrapped : option Err).
    (* fmt.Errorf / errors.New; the rendered arguments are not kept *)

(** The Go interface type [error]: nil or a value. *)
Abbreviation error := (option Err).

(** What running a piece of Go code yields: a value, or a run-time panic. *)
Inductive Outcome (A : Type) : Type :=
| Ret (a : A)
| Panic (msg : string).
Arguments Ret {A} a.
Arguments Panic {A} msg.

Definition nil_dereference {A} : Outcome A :=
  Panic "invalid memory address or nil pointer dereference".

(** [*p]: dereference the pointer [p], panicking on nil. *)
Definition deref {A} (p : option A) : Outcome A :=
  match p with
  | Some a => Ret a
  | None => nil_dereference
  end.

Definition panicked {A} (o : Outcome A) : bool :=
  match o with
  | Panic _ => true
  | Ret _ => false
  end.

(** Package aws: pointer helpers. *)
Module aws.
Definition String (s : string) : option string := Some s.
Definition ToString (p : option string) : string :=
  match p with
  | Some s => s
  | None => ""
  end.
End aws.

(** Package strings. *)
Module strings.
(** [strings.Join]. *)
Fixpoint Join (elems : list string) (sep : string) : string :=
  match elems with
  | [] => ""
  | [e] => e
  | e :: rest => e +:+ sep +:+ Join rest sep
  end.

(** [strings.Split] for a separator of one byte: the pieces between
    the occurrences of [sep]; the empty string gives one empty piece. *)
Fixpoint Split (s : string) (sep : ascii) : list string :=
  match s with
  | EmptyString => [""]
  | String c s' =>
      if Ascii.eqb c sep then "" :: Split s' sep
      else match Split s' sep with
           | [] => [String c ""]
           | p :: ps => String c p :: ps
           end
  end.

(** [strings.Contains]. *)
Fixpoint Contains (s substr : string) : bool :=
  String.prefix substr s ||
  match s with
  | EmptyString => false
  | String _ s' => Contains s' substr
  end.

(** [s] holds the byte [c] somewhere. *)
Fixpoint has_byte (c : ascii) (s : string) : bool :=
  match s with
  | EmptyString => false
  | String c' s' => Ascii.eqb c' c || has_byte c s'
  end.

(** The number of occurrences of the byte [c] in [s]. *)
Fixpoint count_byte (c : ascii) (s : string) : nat :=
  match s with
  | EmptyString => 0
  | String c' s' => (if Ascii.eqb c' c then 1 else 0) + count_byte c s'
  end.
End strings.

(** Error inspection helpers: [tfawserr] of aws-sdk-go-base, and the
    provider's own [errs] and [tfresource]. *)
Module tfawserr.
(** The API error code an error carries, looking through wrapping. *)
Fixpoint ErrorCode (e : Err) : option string :=
  match e with
  | ResourceNotFoundException _ => Some "ResourceNotFoundException"
  | APIError c _ => Some c
  | Errorf _ (Some e') => ErrorCode e'
  | _ => None
  end.

Fixpoint ErrorMessage (e : Err) : option string :=
  match e with
  | ResourceNotFoundException m => Some m
  | APIError _ m => Some m
  | Errorf _ (Some e') => ErrorMessage e'
  | _ => None
  end.

(** [tfawserr.ErrCodeEquals]: false on nil and on errors without a code. *)
Definition ErrCodeEquals (err : error) (code : string) : bool :=
  match err with
  | Some e =>
      match ErrorCode e with
      | Some c => String.eqb c code
      | None => false
      end
  | None => false
  end.

(** [tfawserr.ErrMessageContains]: the code matches and the message
    contains [message]. *)
Definition ErrMessageContains (err : error) (code message : string) : bool :=
  match err with
  | Some e =>
      match ErrorCode e, ErrorMessage e with
      | Some c, Some m => String.eqb c code && strings.Contains m message
      | _, _ => false
      end
  | None => false
  end.
End tfawserr.

Module errs.
(** Modelled from the spec: internal/errs is not under src/.  [errs.IsA]
    at [*awstypes.ResourceNotFoundException] classifies an error by its
    type, looking through wrapping like [errors.As]. *)
Fixpoint IsA_ResourceNotFoundException_Err (e : Err) : bool :=
  match e with
  | ResourceNotFoundException _ => true
  | Errorf _ (Some e') => IsA_ResourceNotFoundException_Err e'
  | _ => false
  end.

Definition IsA_ResourceNotFoundException (err : error) : bool :=
  match err with
  | Some e => IsA_ResourceNotFoundException_Err e
  | None => false
  end.
End errs.

Module tfresource.
(** Modelled from the spec: internal/tfresource is not under src/.
    [tfresource.NotFound] classifies an error as a missing resource:
    [errors.As] to [*retry.NotFoundError]. *)
Fixpoint NotFound_Err (e : Err) : bool :=
  match e with
  | NotFoundError _ => true
  | Errorf _ (Some e') => NotFound_Err e'
  | _ => false
  end.

Definition NotFound (err : error) : bool :=
  match err with
  | Some e => NotFound_Err e
  | None => false
  end.

(** Modelled from the spec: internal/tfresource is not under src/.
    [tfresource.TimedOut] tells the error of a bounded polling that ran
    into its timeout: a [*retry.TimeoutError] itself (not a wrapped one)
    that carries no last error. *)
Definition TimedOut (err : error) : bool :=
  match err with
  | Some (TimeoutError None) => true
  | _ => false
  end.
End tfresource.

(** ** internal/flex: composite resource IDs *)

Module flex.
Definition ResourceIdSeparator : ascii := ","%char.

Definition blank (part : string) : bool := String.eqb part "".

(** The indexes of the blank parts, counted from [index]. *)
Fixpoint emptyParts (index : nat) (idParts : list string) : list nat :=
  match idParts with
  | [] => []
  | part :: rest =>
      if blank part then index :: emptyParts (S index) rest
      else emptyParts (S index) rest
  end.

(** Modelled from the spec: internal/flex's FlattenResourceId is not
    under src/.  The spec describes it as packing a composite multi-part
    identifier into a single string ID: the parts are counted against
    [partCount], blank parts are refused unless [allowEmptyPart], and the
    parts are joined with the separator. *)
Definition FlattenResourceId (idParts : list string) (partCount : nat)
    (allowEmptyPart : bool) : string * error :=
  if negb (length idParts =? partCount)%nat then
    ("", Some (Errorf "unexpected format for ID parts (%v), expected %d parts" None))
  else if negb allowEmptyPart && negb (length (emptyParts 0 idParts) =? 0)%nat then
    ("", Some (Errorf "unexpected format for ID (%[1]s), the following id parts indexes are blank (%v)" None))
  else (strings.Join idParts (String ResourceIdSeparator ""), None).

(** Modelled from the spec: internal/flex's ExpandResourceId is not
    under src/.  The spec describes it as parsing a single string ID back
    into its parts: the ID is split at the separator, and an ID of a
    single part, of a part count other than [partCount], or (unless
    [allowEmptyPart]) with a blank part is refused. *)
Definition ExpandResourceId (id : string) (partCount : nat)
    (allowEmptyPart : bool) : option (list string) * error :=
  let idParts := strings.Split id ResourceIdSeparator in
  if (length idParts <=? 1)%nat then
    (None, Some (Errorf "unexpected format for ID (%v), expected more than one part" None))
  else if negb (length idParts =? partCount)%nat then
    (None, Some (Errorf "unexpected format for ID (%s), expected (%d) parts separated by (%s)" None))
  else if negb allowEmptyPart && negb (length (emptyParts 0 idParts) =? 0)%nat then
    (None, Some (Errorf "unexpected format for ID (%[1]s), the following id parts indexes are blank (%v)" None))
  else (Some idParts, None).
End flex.

(** ** Diagnostics *)

Inductive Severity := SeverityError | SeverityWarning.

(** A diagnostic: its severity, the summary line, and the error it
    reports where it was built from one. *)
Record Diagnostic := {
  severity : Severity;
  summary : string;
  cause : error;
}.

Abbreviation Diagnostics := (list Diagnostic).

Definition is_error (dg : Diagnostic) : bool :=
  match severity dg with
  | SeverityError => true
  | SeverityWarning => false
  end.

Definition HasError (diags : Diagnostics) : bool := existsb is_error diags.

(** [diags.AddError(summary, detail)]. *)
Definition AddError (diags : Diagnostics) (summary : string) (err : error)
    : Diagnostics :=
  diags ++ [{| severity := SeverityError; summary := summary; cause := err |}].

(** terraform-plugin-framework/types: attribute values are null, unknown
    or known. *)
Module types.
Inductive String := StringNull | StringUnknown | StringValue (s : string).
Inductive Bool := BoolNull | BoolUnknown | BoolValue (b : bool).
Inductive List (A : Type) := ListNull | ListUnknown | ListValue (elems : list A).
Arguments ListNull {A}.
Arguments ListUnknown {A}.
Arguments ListValue {A} elems.

(** [ValueString]: the known value, the empty string otherwise. *)
Definition ValueString (v : String) : string :=
  match v with
  | StringValue s => s
  | _ => ""
  end.

(** [Equal]: same state, and the same value when known. *)
Definition String_Equal (a b : String) : bool :=
  match a, b with
  | StringNull, StringNull => true
  | StringUnknown, StringUnknown => true
  | StringValue x, StringValue y => String.eqb x y
  | _, _ => false
  end.

Fixpoint elems_Equal {A} (eq : A -> A -> bool) (xs ys : list A) : bool :=
  match xs, ys with
  | [], [] => true
  | x :: xs', y :: ys' => eq x y && elems_Equal eq xs' ys'
  | _, _ => false
  end.

Definition List_Equal {A} (eq : A -> A -> bool) (a b : List A) : bool :=
  match a, b with
  | ListNull, ListNull => true
  | ListUnknown, ListUnknown => true
  | ListValue xs, ListValue ys => elems_Equal eq xs ys
  | _, _ => false
  end.
End types.

(** ** The Lex V2 slot resource *)

(** The request and response shapes of the Lex V2 models client the
    handlers read or fill by hand.  The nested setting structures travel
    through AutoFlex only and are not part of these records. *)
Module lexmodelsv2.
Module CreateSlotInput.
Record t := mk {
  BotId : option string;
  BotVersion : option string;
  Description : option string;
  IntentId : option string;
  LocaleId : option string;
  SlotName : option string;
  SlotTypeId : option string;
}.
End CreateSlotInput.

Module CreateSlotOutput.
Record t := mk {
  BotId : option string;
  BotVersion : option string;
  Description : option string;
  IntentId : option string;
  LocaleId : option string;
  SlotId : option string;
  SlotName : option string;
  SlotTypeId : option string;
}.
End CreateSlotOutput.

Module DescribeSlotInput.
Record t := mk {
  BotId : option string;
  BotVersion : option string;
  IntentId : option string;
  LocaleId : option string;
  SlotId : option string;
}.
End DescribeSlotInput.

Module DescribeSlotOutput.
Record t := mk {
  BotId : option string;
  BotVersion : option string;
  Description : option string;
  IntentId : option string;
  LocaleId : option string;
  SlotId : option string;
  SlotName : option string;
  SlotTypeId : option string;
}.
End DescribeSlotOutput.

Module UpdateSlotInput.
Record t := mk {
  BotId : option string;
  BotVersion : option string;
  Description : option string;
  IntentId : option string;
  LocaleId : option string;
  SlotId : option string;
  SlotName : option string;
  SlotTypeId : option string;
}.
Definition zero : t := mk None None None None None None None None.
End UpdateSlotInput.

Module UpdateSlotOutput.
Record t := mk {
  SlotId : option string;
  SlotName : option string;
}.
End UpdateSlotOutput.

Module DeleteSlotInput.
Record t := mk {
  BotId : option string;
  BotVersion : option string;
  IntentId : option string;
  LocaleId : option string;
  SlotId : option string;
}.
End DeleteSlotInput.

(** The requests a handler sends, in the order it sends them. *)
Inductive Request :=
| CreateSlot_req (input : CreateSlotInput.t)
| DescribeSlot_req (input : DescribeSlotInput.t)
| UpdateSlot_req (input : UpdateSlotInput.t)
| DeleteSlot_req (input : DeleteSlotInput.t).

(** The service as the handlers see it: what each operation answers. *)
Record Client := {
  CreateSlot : CreateSlotInput.t -> option CreateSlotOutput.t * error;
  DescribeSlot : DescribeSlotInput.t -> option DescribeSlotOutput.t * error;
  UpdateSlot : UpdateSlotInput.t -> option UpdateSlotOutput.t * error;
  DeleteSlot : DeleteSlotInput.t -> error;
}.
End lexmodelsv2.

(** The panic monad: [x ← m; k] runs [k] unless [m] panicked. *)
#[export] Instance Outcome_ret : MRet Outcome := @Ret.
#[export] Instance Outcome_bind : MBind Outcome := fun A B f m =>
  match m with
  | Ret a => f a
  | Panic msg => Panic msg
  end.

#[export] Instance Outcome_fmap : FMap Outcome := fun A B f m =>
  match m with
  | Ret a => Ret (f a)
  | Panic msg => Panic msg
  end.

(** [s[i]] on a Go slice: a run-time panic when [i] is out of range. *)
Definition index {A} (s : list A) (i : nat) : Outcome A :=
  match nth_error s i with
  | Some a => Ret a
  | None => Panic "index out of range"
  end.

Module lexv2models.
Import lexmodelsv2.

Definition ResNameSlot : string := "Slot".
Definition slotIDPartCount : nat := 5.

Record MultipleValuesSettingData := {
  AllowMultipleValues : types.Bool;
}.

Record ObfuscationSettingData := {
  ObfuscationSettingType : types.String;
}.

Definition ObfuscationSettingData_Equal (a b : ObfuscationSettingData) : bool :=
  types.String_Equal (ObfuscationSettingType a) (ObfuscationSettingType b).

Section Slot.
(** The value elicitation block and the timeouts block: the handlers carry
    them along and never look inside, so their contents stay abstract. *)
Variables ValueElicitationSettingData TimeoutsValue : Type.

Record resourceSlotData := {
  BotID : types.String;
  BotVersion : types.String;
  Description : types.String;
  ID : types.String;
  IntentID : types.String;
  LocaleID : types.String;
  MultipleValuesSetting : types.List MultipleValuesSettingData;
  Name : types.String;
  ObfuscationSetting : types.List ObfuscationSettingData;
  Timeouts : TimeoutsValue;
  SlotTypeID : types.String;
  ValueElicitationSettings : types.List ValueElicitationSettingData;
}.

(** [plan.ID = id]. *)
Definition set_ID (d : resourceSlotData) (id : types.String) : resourceSlotData :=
  {| BotID := BotID d; BotVersion := BotVersion d; Description := Description d;
     ID := id; IntentID := IntentID d; LocaleID := LocaleID d;
     MultipleValuesSetting := MultipleValuesSetting d; Name := Name d;
     ObfuscationSetting := ObfuscationSetting d; Timeouts := Timeouts d;
     SlotTypeID := SlotTypeID d;
     ValueElicitationSettings := ValueElicitationSettings d |}.

(** internal/framework/flex (AutoFlex) is not part of these sources: its
    [Expand] and [Flatten] are taken as they come, at each of the types
    the handlers call them at. *)
Record AutoFlex := {
  Expand_CreateSlotInput :
    resourceSlotData -> CreateSlotInput.t -> Diagnostics * CreateSlotInput.t;
  Expand_UpdateSlotInput :
    resourceSlotData -> UpdateSlotInput.t -> Diagnostics * UpdateSlotInput.t;
  Flatten_CreateSlotOutput :
    CreateSlotOutput.t -> resourceSlotData -> Diagnostics * resourceSlotData;
  Flatten_DescribeSlotOutput :
    DescribeSlotOutput.t -> resourceSlotData -> Diagnostics * resourceSlotData;
}.

(** [req.Plan] and [req.State], as the framework decodes them: what
    [Get(ctx, &target)] leaves in the target and the diagnostics it
    reports. *)
Record Source := {
  Get_value : resourceSlotData;
  Get_diags : Diagnostics;
}.

Record CreateRequest := { CreateRequest_Plan : Source }.

Record ReadRequest := { ReadRequest_State : Source }.

Record UpdateRequest := {
  UpdateRequest_Plan : Source;
  UpdateRequest_State : Source;
}.

Record DeleteRequest := { DeleteRequest_State : Source }.

(** A handler's response: the diagnostics and the state it leaves
    ([None]: no resource in state). *)
Record Response := {
  resp_Diagnostics : Diagnostics;
  resp_State : option resourceSlotData;
}.

(** [resp.Diagnostics.Append(diags...)]. *)
Definition Append (resp : Response) (diags : Diagnostics) : Response :=
  {| resp_Diagnostics := resp_Diagnostics resp ++ diags;
     resp_State := resp_State resp |}.

(** [resp.Diagnostics.AddError(create.ProblemStandardMessage(...), ...)]. *)
Definition Problem (resp : Response) (action : string) (err : error) : Response :=
  {| resp_Diagnostics := AddError (resp_Diagnostics resp) action err;
     resp_State := resp_State resp |}.

(** [resp.State.Set(ctx, data)]; the framework's conversion of [data] is
    taken to go through. *)
Definition State_Set (resp : Response) (data : resourceSlotData) : Response :=
  {| resp_Diagnostics := resp_Diagnostics resp; resp_State := Some data |}.

(** [resp.State.RemoveResource(ctx)]. *)
Definition RemoveResource (resp : Response) : Response :=
  {| resp_Diagnostics := resp_Diagnostics resp; resp_State := None |}.

Definition ErrActionCreating : string := "creating".
Definition ErrActionSetting : string := "setting".
Definition ErrActionUpdating : string := "updating".
Definition ErrActionDeleting : string := "deleting".

Definition empty_output : error := Some (Errorf "empty output" None).

Variable fx : AutoFlex.

Definition Create (conn : Client) (req : CreateRequest) (resp : Response)
    : Response * list Request :=
  let plan := Get_value (CreateRequest_Plan req) in
  let resp := Append resp (Get_diags (CreateRequest_Plan req)) in
  if HasError (resp_Diagnostics resp) then (resp, [])
  else
    let in_ :=
      CreateSlotInput.mk None None None None None
        (aws.String (types.ValueString (Name plan))) None in
    let '(diags, in_) := Expand_CreateSlotInput fx plan in_ in
    let resp := Append resp diags in
    if HasError (resp_Diagnostics resp) then (resp, [])
    else
      let sent := [CreateSlot_req in_] in
      match CreateSlot conn in_ with
      | (_, Some err) => (Problem resp ErrActionCreating (Some err), sent)
      | (None, None) => (Problem resp ErrActionCreating empty_output, sent)
      | (Some out, None) =>
          let idParts :=
            [ aws.ToString (CreateSlotOutput.BotId out);
              aws.ToString (CreateSlotOutput.BotVersion out);
              aws.ToString (CreateSlotOutput.IntentId out);
              aws.ToString (CreateSlotOutput.LocaleId out);
              aws.ToString (CreateSlotOutput.SlotId out) ] in
          match flex.FlattenResourceId idParts slotIDPartCount false with
          | (_, Some err) => (Problem resp ErrActionCreating (Some err), sent)
          | (id, None) =>
              let plan := set_ID plan (types.StringValue id) in
              let '(diags, plan) := Flatten_CreateSlotOutput fx out plan in
              let resp := Append resp diags in
              if HasError (resp_Diagnostics resp) then (resp, sent)
              else (State_Set resp plan, sent)
          end
      end.

(** Every return of the Go function gives either the output or an error,
    never both and never neither: the pair is a sum here. *)
Definition findSlotByID (conn : Client) (id : string)
    : Outcome ((DescribeSlotOutput.t + Err) * list Request) :=
  match flex.ExpandResourceId id slotIDPartCount false with
  | (_, Some err) => Ret (inr err, [])
  | (parts, None) =>
      let parts := default [] parts in
      p0 ← index parts 0;
      p1 ← index parts 1;
      p2 ← index parts 2;
      p3 ← index parts 3;
      p4 ← index parts 4;
      let in_ :=
        {| DescribeSlotInput.BotId := aws.String p0;
           DescribeSlotInput.BotVersion := aws.String p1;
           DescribeSlotInput.IntentId := aws.String p2;
           DescribeSlotInput.LocaleId := aws.String p3;
           DescribeSlotInput.SlotId := aws.String p4 |} in
      let sent := [DescribeSlot_req in_] in
      match DescribeSlot conn in_ with
      | (_, Some err) =>
          if errs.IsA_ResourceNotFoundException (Some err)
          then Ret (inr (NotFoundError (Some err)), sent)
          else Ret (inr err, sent)
      | (None, None) =>
          (* tfresource.NewEmptyResultError(in): a not-found error *)
          Ret (inr (NotFoundError None), sent)
      | (Some out, None) => Ret (inl out, sent)
      end
  end.

Definition Read (conn : Client) (req : ReadRequest) (resp : Response)
    : Outcome (Response * list Request) :=
  let state := Get_value (ReadRequest_State req) in
  let resp := Append resp (Get_diags (ReadRequest_State req)) in
  if HasError (resp_Diagnostics resp) then Ret (resp, [])
  else
    '(found, sent) ← findSlotByID conn (types.ValueString (ID state));
    match found with
    | inr err =>
        if tfresource.NotFound (Some err) then Ret (RemoveResource resp, sent)
        else Ret (Problem resp ErrActionSetting (Some err), sent)
    | inl out =>
        let '(diags, state) := Flatten_DescribeSlotOutput fx out state in
        let resp := Append resp diags in
        if HasError (resp_Diagnostics resp) then Ret (resp, sent)
        else Ret (State_Set resp state, sent)
    end.

Definition slotHasChanges (plan state : resourceSlotData) : bool :=
  negb (types.String_Equal (Description plan) (Description state)) ||
  negb (types.String_Equal (Name plan) (Name state)) ||
  negb (types.String_Equal (Description plan) (Description state)) ||
  negb (types.String_Equal (SlotTypeID plan) (SlotTypeID state)) ||
  negb (types.List_Equal ObfuscationSettingData_Equal
          (ObfuscationSetting plan) (ObfuscationSetting state)).

Definition Update (conn : Client) (req : UpdateRequest) (resp : Response)
    : Response * list Request :=
  let plan := Get_value (UpdateRequest_Plan req) in
  let state := Get_value (UpdateRequest_State req) in
  let resp := Append resp (Get_diags (UpdateRequest_Plan req)) in
  let resp := Append resp (Get_diags (UpdateRequest_State req)) in
  if HasError (resp_Diagnostics resp) then (resp, [])
  else if slotHasChanges plan state then
    let '(diags, input) := Expand_UpdateSlotInput fx plan UpdateSlotInput.zero in
    let resp := Append resp diags in
    if HasError (resp_Diagnostics resp) then (resp, [])
    else
      let sent := [UpdateSlot_req input] in
      match UpdateSlot conn input with
      | (_, Some err) => (Problem resp ErrActionUpdating (Some err), sent)
      | (None, None) => (Problem resp ErrActionUpdating empty_output, sent)
      | (Some out, None) =>
          if HasError (resp_Diagnostics resp) then (resp, sent)
          else (State_Set resp plan, sent)
      end
  else (State_Set resp plan, []).

Definition Delete (conn : Client) (req : DeleteRequest) (resp : Response)
    : Response * list Request :=
  let state := Get_value (DeleteRequest_State req) in
  let resp := Append resp (Get_diags (DeleteRequest_State req)) in
  if HasError (resp_Diagnostics resp) then (resp, [])
  else
    let in_ :=
      {| DeleteSlotInput.BotId := aws.String (types.ValueString (ID state));
         DeleteSlotInput.BotVersion := aws.String (types.ValueString (ID state));
         DeleteSlotInput.IntentId := aws.String (types.ValueString (ID state));
         DeleteSlotInput.LocaleId := aws.String (types.ValueString (ID state));
         DeleteSlotInput.SlotId := aws.String (types.ValueString (ID state)) |} in
    let sent := [DeleteSlot_req in_] in
    match DeleteSlot conn in_ with
    | Some err =>
        if errs.IsA_ResourceNotFoundException (Some err) then (resp, sent)
        else (Problem resp ErrActionDeleting (Some err), sent)
    | None => (resp, sent)
    end.
End Slot.

Arguments BotID {_ _}.
Arguments BotVersion {_ _}.
Arguments Description {_ _}.
Arguments ID {_ _}.
Arguments IntentID {_ _}.
Arguments LocaleID {_ _}.
Arguments MultipleValuesSetting {_ _}.
Arguments Name {_ _}.
Arguments ObfuscationSetting {_ _}.
Arguments Timeouts {_ _}.
Arguments SlotTypeID {_ _}.
Arguments ValueElicitationSettings {_ _}.
Arguments set_ID {_ _}.
Arguments Expand_CreateSlotInput {_ _}.
Arguments Expand_UpdateSlotInput {_ _}.
Arguments Flatten_CreateSlotOutput {_ _}.
Arguments Flatten_DescribeSlotOutput {_ _}.
Arguments Get_value {_ _}.
Arguments Get_diags {_ _}.
Arguments CreateRequest_Plan {_ _}.
Arguments ReadRequest_State {_ _}.
Arguments UpdateRequest_Plan {_ _}.
Arguments UpdateRequest_State {_ _}.
Arguments DeleteRequest_State {_ _}.
Arguments resp_Diagnostics {_ _}.
Arguments resp_State {_ _}.
Arguments Append {_ _}.
Arguments Problem {_ _}.
Arguments State_Set {_ _}.
Arguments RemoveResource {_ _}.
Arguments Create {_ _}.
Arguments Read {_ _}.
Arguments slotHasChanges {_ _}.
Arguments Update {_ _}.
Arguments Delete {_ _}.
End lexv2models.

(** ** Package time *)

Module time.
(** [time.Duration]: a count of nanoseconds. *)
Abbreviation Duration := Z.
Definition Nanosecond : Duration := 1.
Definition Millisecond : Duration := 1000000 * Nanosecond.
Definition Second : Duration := 1000 * Millisecond.
Definition Minute : Duration := 60 * Second.
End time.

(** ** The outside world of an SDK handler *)

(** What a handler run touches besides its arguments: the clock (in
    nanoseconds), the generator behind [id.UniqueId], the number of calls
    made, and the requests sent so far, each with the time it was sent
    at. *)
Section World.
Variable Request : Type.

Record World := {
  now : Z;
  unique_ids : nat -> string;
  ids_drawn : nat;
  calls : nat;
  sent : list (Z * Request);
}.

(** The clock moves on by [d]. *)
Definition elapse (d : Z) (w : World) : World :=
  {| now := now w + d; unique_ids := unique_ids w; ids_drawn := ids_drawn w;
     calls := calls w; sent := sent w |}.

(** The clock stands at [t]: the caller has stopped waiting for what was
    under way. *)
Definition at_time (t : Z) (w : World) : World :=
  {| now := t; unique_ids := unique_ids w; ids_drawn := ids_drawn w;
     calls := calls w; sent := sent w |}.

(** A request leaves at the current time. *)
Definition send (r : Request) (w : World) : World :=
  {| now := now w; unique_ids := unique_ids w; ids_drawn := ids_drawn w;
     calls := S (calls w); sent := sent w ++ [(now w, r)] |}.

(** [id.UniqueId()]: the next identifier of the generator. *)
Definition UniqueId (w : World) : string * World :=
  (unique_ids w (ids_drawn w),
   {| now := now w; unique_ids := unique_ids w; ids_drawn := S (ids_drawn w);
      calls := calls w; sent := sent w |}).
End World.

Arguments now {Request} w.
Arguments unique_ids {Request} w.
Arguments ids_drawn {Request} w.
Arguments calls {Request} w.
Arguments sent {Request} w.
Arguments elapse {Request} d w.
Arguments at_time {Request} t w.
Arguments send {Request} r w.
Arguments UniqueId {Request} w.

(** ** helper/retry of the plugin SDK *)

Module retry.
(** [retry.RetryError]. *)
Record RetryError := {
  Err : error;
  Retryable : bool;
}.

(** [retry.RetryableError] and [retry.NonRetryableError]; the result is a
    [*RetryError]. *)
Definition RetryableError (err : error) : option RetryError :=
  Some {| Err := err; Retryable := true |}.
Definition NonRetryableError (err : error) : option RetryError :=
  Some {| Err := err; Retryable := false |}.

(** The plugin SDK is not part of this repository; its polling is taken
    from helper/retry.  [RetryContext] polls with a [StateChangeConf]
    whose [MinTimeout] is half a second. *)
Definition MinTimeout : time.Duration := 500 * time.Millisecond.

(** [refreshGracePeriod]: how long a refresh that is under way at the
    deadline is waited for. *)
Definition refreshGracePeriod : time.Duration := 30 * time.Second.

(** The pause before the next poll: the last pause doubled, no less than
    [MinTimeout] and no more than ten seconds. *)
Definition backoff (wait : time.Duration) : time.Duration :=
  let wait := (2 * wait)%Z in
  if (wait <? MinTimeout)%Z then MinTimeout
  else if (10 * time.Second <? wait)%Z then (10 * time.Second)%Z
  else wait.

(** [RetryContext]'s choice between the error of the last attempt that
    came back and the [TimeoutError] of the wait: "resultErr takes
    precedence over waitErr if both are set"; the [TimeoutError] of the
    wait carries no last error, for the refresh function reports a
    retryable error as a pending state. *)
Definition atDeadline (last : error) : error :=
  match last with
  | Some e => Some e
  | None => Some (TimeoutError None)
  end.

Section RetryContext.
Variable Request : Type.

(** [retry.RetryFunc], run against the world. *)
Definition RetryFunc := World Request -> option RetryError * World Request.

(** What [RetryContext] hands back once the deadline has passed, from the
    error of the last attempt that came back (nil when none did).  The
    plugin SDK's rule is [atDeadline]. *)
Variable onDeadline : error -> error.

(** The polling loop, one poll after the other.  Before a poll the loop
    pauses for [wait], which grows from poll to poll as [backoff] has it;
    a deadline that falls into the pause ends the loop there.  Otherwise [f] runs: when it has not come back by the end of
    the grace period after the deadline the loop gives it up; success and
    an error that is not retryable end the loop, also within the grace
    period; after a retryable error the loop goes on with the next pause.
    [last] is the error of the last attempt that came back; [fuel] bounds
    the number of polls. *)
Fixpoint poll (fuel : nat) (deadline : Z) (f : RetryFunc) (last : error)
    (wait : time.Duration) (w : World Request) : option (error * World Request) :=
  match fuel with
  | O => None
  | S fuel' =>
      if (deadline <=? now w + wait)%Z
      then Some (onDeadline last, at_time (Z.max deadline (now w)) w)
      else
        let '(rerr, w') := f (elapse wait w) in
        if (deadline + refreshGracePeriod <? now w')%Z
        then Some (onDeadline last, at_time (deadline + refreshGracePeriod) w')
        else
          match rerr with
          | None => Some (None, w')
          | Some rerr =>
              if Retryable rerr
              then poll fuel' deadline f (Err rerr) (backoff wait) w'
              else Some (Err rerr, w')
          end
  end.

(** Polls that fit in [timeout] at the least pause, with the one that
    finds the deadline passed. *)
Definition polls (timeout : time.Duration) : nat :=
  S (S (Z.to_nat (timeout / MinTimeout))).

(** [retry.RetryContext(ctx, timeout, f)]: the first poll comes without
    a pause.  [None] would be a loop that outlives its bound of polls. *)
Definition RetryContext (timeout : time.Duration) (f : RetryFunc)
    (w : World Request) : option (error * World Request) :=
  poll (polls timeout) (now w + timeout) f None 0 w.
End RetryContext.
End retry.

(** ** helper/schema of the plugin SDK *)

Module schema.
Inductive ValueType := TypeString | TypeInt | TypeList.

(** The value of an attribute. *)
Inductive Value :=
| VString (s : string)
| VInt (n : Z)
| VList (elems : list string).

(** [schema.Schema]: one attribute of a resource. *)
Record Schema := {
  Type_ : ValueType;
  Required : bool;
  Optional : bool;
  ForceNew : bool;
  Computed : bool;
}.

(** [schema.Resource]: the handlers a resource registers, in the plain
    and in the context-aware slots, and its attributes. *)
Record Resource (H : Type) := {
  Create : option H;
  Read : option H;
  Update : option H;
  Delete : option H;
  CreateWithoutTimeout : option H;
  ReadWithoutTimeout : option H;
  UpdateWithoutTimeout : option H;
  DeleteWithoutTimeout : option H;
  Importer : bool;
  Schema_ : gmap string Schema;
  Timeouts : gmap string time.Duration;
}.
Arguments Create {H} r.
Arguments Read {H} r.
Arguments Update {H} r.
Arguments Delete {H} r.
Arguments CreateWithoutTimeout {H} r.
Arguments ReadWithoutTimeout {H} r.
Arguments UpdateWithoutTimeout {H} r.
Arguments DeleteWithoutTimeout {H} r.
Arguments Importer {H} r.
Arguments Schema_ {H} r.
Arguments Timeouts {H} r.

Definition TimeoutCreate : string := "create".
Definition TimeoutDelete : string := "delete".

(** [schema.ResourceData]. *)
Record ResourceData := {
  Id : string;
  attrs : gmap string Value;
  IsNewResource : bool;
  timeouts : gmap string time.Duration;
}.

Definition SetId (d : ResourceData) (id : string) : ResourceData :=
  {| Id := id; attrs := attrs d; IsNewResource := IsNewResource d;
     timeouts := timeouts d |}.

(** [d.Set(key, value)]; a nil value clears the attribute. *)
Definition Set_ (d : ResourceData) (key : string) (v : option Value)
    : ResourceData :=
  {| Id := Id d;
     attrs := match v with
              | Some v => <[key := v]> (attrs d)
              | None => delete key (attrs d)
              end;
     IsNewResource := IsNewResource d; timeouts := timeouts d |}.

(** [d.Get(key)]. *)
Definition Get (d : ResourceData) (key : string) : option Value :=
  attrs d !! key.

(** The zero value test behind [d.GetOk]. *)
Definition is_zero (v : Value) : bool :=
  match v with
  | VString s => String.eqb s ""
  | VInt n => (n =? 0)%Z
  | VList l => (length l =? 0)%nat
  end.

(** [d.GetOk(key)]: the value, when it is set to something other than
    the zero value. *)
Definition GetOk (d : ResourceData) (key : string) : option Value :=
  match attrs d !! key with
  | Some v => if is_zero v then None else Some v
  | None => None
  end.

(** [v.(string)] on a value the schema types as a string. *)
Definition str (v : Value) : string :=
  match v with
  | VString s => s
  | _ => ""
  end.

(** [flex.ExpandStringList(v.([]interface{}))] on a value the schema
    types as a list of strings. *)
Definition strs (v : Value) : list string :=
  match v with
  | VList l => l
  | _ => []
  end.

(** [d.Get(key).(string)] for a key that the schema of the resource
    declares as a string: the zero value when the attribute is unset. *)
Definition GetString (d : ResourceData) (key : string) : string :=
  match Get d key with
  | Some v => str v
  | None => ""
  end.

(** [d.Get(key).(string)] in a resource whose schema is [s]: for a key
    that [s] does not declare [d.Get] returns nil, and the type assertion
    panics. *)
Definition GetStringIn (s : gmap string Schema) (d : ResourceData) (key : string)
    : Outcome string :=
  match s !! key with
  | Some _ => Ret (GetString d key)
  | None => Panic "interface conversion: interface {} is nil, not string"
  end.

(** [d.Get(key).([]interface{})]. *)
Definition GetList (d : ResourceData) (key : string) : list string :=
  match Get d key with
  | Some v => strs v
  | None => []
  end.

(** [d.Timeout(key)], twenty minutes when the key has none. *)
Definition Timeout (d : ResourceData) (key : string) : time.Duration :=
  default (20 * time.Minute)%Z (timeouts d !! key).

(** The operations of a resource. *)
Inductive Operation := OpCreate | OpRead | OpUpdate | OpDelete.

(** Whether the resource registers a handler for the operation, in
    either slot. *)
Definition registers {H} (r : Resource H) (op : Operation) : bool :=
  match op with
  | OpCreate => bool_decide (is_Some (Create r)) || bool_decide (is_Some (CreateWithoutTimeout r))
  | OpRead => bool_decide (is_Some (Read r)) || bool_decide (is_Some (ReadWithoutTimeout r))
  | OpUpdate => bool_decide (is_Some (Update r)) || bool_decide (is_Some (UpdateWithoutTimeout r))
  | OpDelete => bool_decide (is_Some (Delete r)) || bool_decide (is_Some (DeleteWithoutTimeout r))
  end.
End schema.

(** Modelled from the spec: internal/errs/sdkdiag is not under src/.
    [sdkdiag.AppendErrorf(diags, format, ..., err)] and
    [sdkdiag.AppendFromErr(diags, err)] append one error diagnostic that
    reports [err]. *)
Module sdkdiag.
Definition AppendErrorf (diags : Diagnostics) (format : string) (err : error)
    : Diagnostics :=
  AddError diags format err.
Definition AppendFromErr (diags : Diagnostics) (err : error) : Diagnostics :=
  AddError diags "" err.
End sdkdiag.

(** ** The Macie organization admin account resource *)

Module macie2.
(** awstypes.ErrorCodeClientError and awstypes.ErrCodeAccessDeniedException. *)
Definition ErrorCodeClientError : string := "ClientError".
Definition ErrCodeAccessDeniedException : string := "AccessDeniedException".

Record EnableOrganizationAdminAccountInput := {
  AdminAccountId : option string;
  ClientToken : option string;
}.

Record DisableOrganizationAdminAccountInput := {
  Disable_AdminAccountId : option string;
}.

Record AdminAccount := {
  AccountId : option string;
  Status : option string;
}.

Record ListOrganizationAdminAccountsOutput := {
  AdminAccounts : list (option AdminAccount);
}.

Inductive Request :=
| EnableOrganizationAdminAccount_req (input : EnableOrganizationAdminAccountInput)
| DisableOrganizationAdminAccount_req (input : DisableOrganizationAdminAccountInput)
| ListOrganizationAdminAccounts_req.

(** How long a call took and the error it came back with. *)
Record Answer := {
  latency : N;
  answer : error;
}.

(** The service as the handlers see it: the answer to the n-th request
    of the run when that request is an EnableOrganizationAdminAccount,
    the answer to DisableOrganizationAdminAccount, and for
    ListOrganizationAdminAccounts the pages that come back, one per
    request, and the error that the request after them fails with (nil
    when the last of the pages ends the listing). *)
Record Client := {
  EnableOrganizationAdminAccount_answers : nat -> Answer;
  DisableOrganizationAdminAccount_answer : error;
  ListOrganizationAdminAccounts_pages : list (option ListOrganizationAdminAccountsOutput);
  ListOrganizationAdminAccounts_err : error;
}.

(** [meta.( *conns.AWSClient)]. *)
Record AWSClient := {
  Macie2Client : Client;
}.

Abbreviation World := (World Request).

(** [conn.EnableOrganizationAdminAccount(ctx, input)]. *)
Definition EnableOrganizationAdminAccount (conn : Client)
    (input : EnableOrganizationAdminAccountInput) (w : World) : error * World :=
  let a := EnableOrganizationAdminAccount_answers conn (calls w) in
  (answer a,
   elapse (Z.of_N (latency a)) (send (EnableOrganizationAdminAccount_req input) w)).

(** [conn.DisableOrganizationAdminAccount(ctx, input)]. *)
Definition DisableOrganizationAdminAccount (conn : Client)
    (input : DisableOrganizationAdminAccountInput) (w : World) : error * World :=
  (DisableOrganizationAdminAccount_answer conn,
   send (DisableOrganizationAdminAccount_req input) w).

(** The pager: one request per page; [fn] sees each page that comes
    back, with the last-page flag, until it answers false.  A page is the
    last one when no request follows it.  The error is the one of the
    request that failed: nil when [fn] stopped the paging or the pages
    came to their end. *)
Fixpoint eachPage {S} (pages : list (option ListOrganizationAdminAccountsOutput))
    (err : error)
    (fn : option ListOrganizationAdminAccountsOutput -> bool -> S -> bool * S)
    (s : S) (w : World) : (S * error) * World :=
  match pages with
  | [] =>
      match err with
      | Some _ => ((s, err), send ListOrganizationAdminAccounts_req w)
      | None => ((s, None), w)
      end
  | page :: rest =>
      let w := send ListOrganizationAdminAccounts_req w in
      let lastPage :=
        match rest, err with
        | [], None => true
        | _, _ => false
        end in
      let '(more, s) := fn page lastPage s in
      if more then eachPage rest err fn s w else ((s, None), w)
  end.

(** [conn.ListOrganizationAdminAccountsPages(ctx, input, fn)].  The first
    request is sent in any case: a listing without a page and without an
    error comes back as one page without accounts. *)
Definition ListOrganizationAdminAccountsPages {S} (conn : Client)
    (fn : option ListOrganizationAdminAccountsOutput -> bool -> S -> bool * S)
    (s : S) (w : World) : (S * error) * World :=
  match ListOrganizationAdminAccounts_pages conn, ListOrganizationAdminAccounts_err conn with
  | [], None => eachPage [Some {| AdminAccounts := [] |}] None fn s w
  | pages, err => eachPage pages err fn s w
  end.

(** The range loop over a page's accounts. *)
Fixpoint rangeAdminAccounts (adminAccountID : string)
    (accounts : list (option AdminAccount)) : option AdminAccount :=
  match accounts with
  | [] => None
  | None :: rest => rangeAdminAccounts adminAccountID rest
  | Some adminAccount :: rest =>
      if String.eqb (aws.ToString (AccountId adminAccount)) adminAccountID
      then Some adminAccount
      else rangeAdminAccounts adminAccountID rest
  end.

Definition GetOrganizationAdminAccount (conn : Client) (adminAccountID : string)
    (w : World) : (option AdminAccount * error) * World :=
  ListOrganizationAdminAccountsPages conn
    (fun page lastPage res =>
       match page with
       | None => (negb lastPage, res)
       | Some page =>
           match rangeAdminAccounts adminAccountID (AdminAccounts page) with
           | Some adminAccount => (false, Some adminAccount)
           | None => (negb lastPage, res)
           end
       end)
    None w.

(** A handler: [None] stands for a run that does not return. *)
Definition Handler : Type :=
  AWSClient -> schema.ResourceData -> World ->
  option (Diagnostics * schema.ResourceData * World).

Definition resourceOrganizationAdminAccountRead : Handler := fun meta d w =>
  let diags : Diagnostics := [] in
  let conn := Macie2Client meta in
  let '((res, err), w) := GetOrganizationAdminAccount conn (schema.Id d) w in
  if negb (schema.IsNewResource d) &&
     (errs.IsA_ResourceNotFoundException err ||
      tfawserr.ErrMessageContains err ErrCodeAccessDeniedException "Macie is not enabled")
  then Some (diags, schema.SetId d "", w)
  else
    match err with
    | Some _ =>
        Some (sdkdiag.AppendErrorf diags "reading Macie OrganizationAdminAccount (%s): %s" err, d, w)
    | None =>
        match res with
        | None =>
            if negb (schema.IsNewResource d) then Some (diags, schema.SetId d "", w)
            else Some (sdkdiag.AppendFromErr diags (Some (NotFoundError None)), d, w)
        | Some res =>
            Some (diags,
                  schema.Set_ d "admin_account_id" (schema.VString <$> AccountId res), w)
        end
    end.

Section Create.
(** The rule by which [retry.RetryContext] picks the error it returns
    once the deadline has passed; the plugin SDK's is [retry.atDeadline],
    so that the handler the provider runs is
    [resourceOrganizationAdminAccountCreate retry.atDeadline]. *)
Variable onDeadline : error -> error.

(** The function handed to [retry.RetryContext]. *)
Definition enableOnce (conn : Client) (input : EnableOrganizationAdminAccountInput)
    : retry.RetryFunc Request := fun w =>
  let '(err, w) := EnableOrganizationAdminAccount conn input w in
  if tfawserr.ErrCodeEquals err ErrorCodeClientError then (retry.RetryableError err, w)
  else
    match err with
    | Some _ => (retry.NonRetryableError err, w)
    | None => (None, w)
    end.

Definition resourceOrganizationAdminAccountCreate : Handler := fun meta d w =>
  let diags : Diagnostics := [] in
  let conn := Macie2Client meta in
  let adminAccountID := schema.GetString d "admin_account_id" in
  let '(token, w) := UniqueId w in
  let input :=
    {| AdminAccountId := aws.String adminAccountID;
       ClientToken := aws.String token |} in
  match retry.RetryContext Request onDeadline (4 * time.Minute)
          (enableOnce conn input) w with
  | None => None
  | Some (err, w) =>
      let '(err, w) :=
        if tfresource.TimedOut err then EnableOrganizationAdminAccount conn input w
        else (err, w) in
      match err with
      | Some _ =>
          Some (sdkdiag.AppendErrorf diags "creating Macie OrganizationAdminAccount: %s" err, d, w)
      | None =>
          let d := schema.SetId d adminAccountID in
          match resourceOrganizationAdminAccountRead meta d w with
          | None => None
          | Some (read_diags, d, w) => Some (diags ++ read_diags, d, w)
          end
      end
  end.
End Create.

Definition resourceOrganizationAdminAccountDelete : Handler := fun meta d w =>
  let diags : Diagnostics := [] in
  let conn := Macie2Client meta in
  let input := {| Disable_AdminAccountId := aws.String (schema.Id d) |} in
  let '(err, w) := DisableOrganizationAdminAccount conn input w in
  match err with
  | Some _ =>
      if errs.IsA_ResourceNotFoundException err ||
         tfawserr.ErrMessageContains err ErrCodeAccessDeniedException "Macie is not enabled"
      then Some (diags, d, w)
      else Some (sdkdiag.AppendErrorf diags "deleting Macie OrganizationAdminAccount (%s): %s" err, d, w)
  | None => Some (diags, d, w)
  end.

Definition ResourceOrganizationAdminAccount (onDeadline : error -> error)
    : schema.Resource Handler :=
  {| schema.Create := None;
     schema.Read := None;
     schema.Update := None;
     schema.Delete := None;
     schema.CreateWithoutTimeout := Some (resourceOrganizationAdminAccountCreate onDeadline);
     schema.ReadWithoutTimeout := Some resourceOrganizationAdminAccountRead;
     schema.UpdateWithoutTimeout := None;
     schema.DeleteWithoutTimeout := Some resourceOrganizationAdminAccountDelete;
     schema.Importer := true;
     schema.Schema_ :=
       {[ "admin_account_id" :=
            {| schema.Type_ := schema.TypeString; schema.Required := true;
               schema.Optional := false; schema.ForceNew := true;
               schema.Computed := false |} ]};
     schema.Timeouts := ∅ |}.

(** The request with its client token blanked. *)
Definition forget_token (r : Request) : Request :=
  match r with
  | EnableOrganizationAdminAccount_req input =>
      EnableOrganizationAdminAccount_req
        {| AdminAccountId := AdminAccountId input; ClientToken := None |}
  | _ => r
  end.

(** The inputs of the EnableOrganizationAdminAccount requests among
    [requests], in the order they were sent. *)
Fixpoint enable_inputs (requests : list (Z * Request))
    : list EnableOrganizationAdminAccountInput :=
  match requests with
  | [] => []
  | (_, EnableOrganizationAdminAccount_req input) :: rest => input :: enable_inputs rest
  | _ :: rest => enable_inputs rest
  end.
(** The requests sent, each seen through [f]. *)
Definition seen (f : Request -> Request) (requests : list (Z * Request))
    : list (Z * Request) :=
  map (fun tr => (fst tr, f (snd tr))) requests.

(** Two worlds that agree on the clock, on the number of calls and, seen
    through [f], on the requests sent; their generators may differ. *)
Definition alike (f : Request -> Request) (w w' : World) : Prop :=
  now w = now w' /\ calls w = calls w' /\ seen f (sent w) = seen f (sent w').
End macie2.

(** ** The Grafana workspace SAML configuration resource *)

Module grafana.
(** A Go slice of strings: nil, or its elements. *)
Abbreviation slice := (option (list string)).

Record AssertionAttributes := {
  Email : option string;
  Groups : option string;
  Login : option string;
  Name : option string;
  Org : option string;
  Role : option string;
}.

Record IdpMetadata := {
  Url : option string;
  Xml : option string;
}.

Record RoleValues := {
  Admin : slice;
  Editor : slice;
}.

Record SamlConfiguration := {
  AllowedOrganizations : slice;
  AssertionAttributes_ : option AssertionAttributes;
  IdpMetadata_ : option IdpMetadata;
  LoginValidityDuration : option Z;
  RoleValues_ : option RoleValues;
}.

Record SamlAuthentication := {
  Configuration : option SamlConfiguration;
  Status : option string;
}.

Record AuthenticationSummary := {
  Providers : slice;
}.

Record WorkspaceDescription := {
  Authentication : option AuthenticationSummary;
}.

Record UpdateWorkspaceAuthenticationInput := {
  AuthenticationProviders : slice;
  SamlConfiguration_ : option SamlConfiguration;
  WorkspaceId : option string;
}.

(** What a handler does to the service, in order: the API call it makes
    itself and the calls of the package's finders and waiters. *)
Inductive Event :=
| FindWorkspaceByID_call (id : string)
| FindSamlConfigurationByID_call (id : string)
| UpdateWorkspaceAuthentication_call (input : UpdateWorkspaceAuthenticationInput)
| waitWorkspaceSamlConfigurationCreated_call (id : string) (timeout : time.Duration)
| waitWorkspaceSamlConfigurationDeleted_call (id : string) (timeout : time.Duration).

(** [meta.( *conns.AWSClient).GrafanaConn], with what the package's
    finders and waiters (find.go and wait.go are not among these sources)
    give back on it. *)
Record Conn := {
  UpdateWorkspaceAuthentication : UpdateWorkspaceAuthenticationInput -> error;
  FindWorkspaceByID : string -> option WorkspaceDescription * error;
  FindSamlConfigurationByID : string -> option SamlAuthentication * error;
  waitWorkspaceSamlConfigurationCreated : string -> time.Duration -> error;
  waitWorkspaceSamlConfigurationDeleted : string -> time.Duration -> error;
}.

(** A handler: the events of the run, and the error and resource data it
    returns with unless it panics. *)
Definition Handler : Type :=
  Conn -> schema.ResourceData ->
  list Event * Outcome (error * schema.ResourceData).

Definition optionalString : schema.Schema :=
  {| schema.Type_ := schema.TypeString; schema.Required := false;
     schema.Optional := true; schema.ForceNew := false; schema.Computed := false |}.

Definition optionalList : schema.Schema :=
  {| schema.Type_ := schema.TypeList; schema.Required := false;
     schema.Optional := true; schema.ForceNew := false; schema.Computed := false |}.

(** The attributes the resource declares. *)
Definition resourceSchema : gmap string schema.Schema :=
  list_to_map
    [ ("admin_role_values", optionalList);
      ("allowed_organizations", optionalList);
      ("editor_role_values",
       {| schema.Type_ := schema.TypeList; schema.Required := true;
          schema.Optional := false; schema.ForceNew := false;
          schema.Computed := false |});
      ("email_assertion", optionalString);
      ("groups_assertion", optionalString);
      ("idp_metadata_url", optionalString);
      ("idp_metadata_xml", optionalString);
      ("login_assertion", optionalString);
      ("login_validity_duration",
       {| schema.Type_ := schema.TypeInt; schema.Required := false;
          schema.Optional := true; schema.ForceNew := false;
          schema.Computed := false |});
      ("name_assertion", optionalString);
      ("org_assertion", optionalString);
      ("role_assertion", optionalString);
      ("status",
       {| schema.Type_ := schema.TypeString; schema.Required := false;
          schema.Optional := false; schema.ForceNew := false;
          schema.Computed := true |}) ].

Definition string_value (p : option string) : option schema.Value :=
  schema.VString <$> p.
Definition list_value (p : slice) : option schema.Value :=
  schema.VList <$> p.

(** [if p != nil { d.Set(key, p) }]. *)
Definition set_if_not_nil (d : schema.ResourceData) (key : string)
    (v : option schema.Value) : schema.ResourceData :=
  match v with
  | Some _ => schema.Set_ d key v
  | None => d
  end.

Definition resourceWorkspaceSamlConfigurationRead : Handler := fun conn d =>
  let events := [FindSamlConfigurationByID_call (schema.Id d)] in
  let '(saml, err) := FindSamlConfigurationByID conn (schema.Id d) in
  if tfresource.NotFound err && negb (schema.IsNewResource d)
  then (events, Ret (None, schema.SetId d ""))
  else
    match err with
    | Some e =>
        (events,
         Ret (Some (Errorf "error reading Grafana Workspace Saml Configuration (%s): %w" (Some e)), d))
    | None =>
        (events,
         saml ← deref saml;
         configuration ← deref (Configuration saml);
         roleValues ← deref (RoleValues_ configuration);
         let d := set_if_not_nil d "admin_role_values" (list_value (Admin roleValues)) in
         let d := set_if_not_nil d "allowed_organizations"
                    (list_value (AllowedOrganizations configuration)) in
         let d := schema.Set_ d "editor_role_values" (list_value (Editor roleValues)) in
         assertionAttributes ← deref (AssertionAttributes_ configuration);
         let d := set_if_not_nil d "email_assertion" (string_value (Email assertionAttributes)) in
         let d := set_if_not_nil d "groups_assertion" (string_value (Groups assertionAttributes)) in
         idpMetadata ← deref (IdpMetadata_ configuration);
         let d := set_if_not_nil d "idp_metadata_url" (string_value (Url idpMetadata)) in
         let d := set_if_not_nil d "idp_metadata_xml" (string_value (Xml idpMetadata)) in
         let d := set_if_not_nil d "login_assertion" (string_value (Login assertionAttributes)) in
         let d := set_if_not_nil d "login_validity_duration"
                    (schema.VInt <$> LoginValidityDuration configuration) in
         let d := set_if_not_nil d "name_assertion" (string_value (Name assertionAttributes)) in
         let d := set_if_not_nil d "org_assertion" (string_value (Org assertionAttributes)) in
         let d := set_if_not_nil d "role_assertion" (string_value (Role assertionAttributes)) in
         let d := schema.Set_ d "status" (string_value (Status saml)) in
         Ret (None, d))
    end.

Definition emptyAssertionAttributes : AssertionAttributes :=
  {| Email := None; Groups := None; Login := None; Name := None;
     Org := None; Role := None |}.

(** [if assertionAttributes == nil { assertionAttributes = &AssertionAttributes{} }]. *)
Definition orNew (a : option AssertionAttributes) : AssertionAttributes :=
  default emptyAssertionAttributes a.

(** The assertion attributes the upsert builds from the configuration. *)
Definition expandAssertionAttributes (d : schema.ResourceData)
    : option AssertionAttributes :=
  let a : option AssertionAttributes :=
    match schema.GetOk d "email_assertion" with
    | Some v =>
        Some {| Email := aws.String (schema.str v); Groups := None; Login := None;
                Name := None; Org := None; Role := None |}
    | None => None
    end in
  let a :=
    match schema.GetOk d "groups_assertion" with
    | Some v =>
        let a := orNew a in
        Some {| Email := Email a; Groups := aws.String (schema.str v); Login := Login a;
                Name := Name a; Org := Org a; Role := Role a |}
    | None => a
    end in
  let a :=
    match schema.GetOk d "login_assertion" with
    | Some v =>
        let a := orNew a in
        Some {| Email := Email a; Groups := Groups a; Login := aws.String (schema.str v);
                Name := Name a; Org := Org a; Role := Role a |}
    | None => a
    end in
  let a :=
    match schema.GetOk d "name_assertion" with
    | Some v =>
        let a := orNew a in
        Some {| Email := Email a; Groups := Groups a; Login := Login a;
                Name := aws.String (schema.str v); Org := Org a; Role := Role a |}
    | None => a
    end in
  let a :=
    match schema.GetOk d "org_assertion" with
    | Some v =>
        let a := orNew a in
        Some {| Email := Email a; Groups := Groups a; Login := Login a;
                Name := Name a; Org := aws.String (schema.str v); Role := Role a |}
    | None => a
    end in
  match schema.GetOk d "role_assertion" with
  | Some v =>
      let a := orNew a in
      Some {| Email := Email a; Groups := Groups a; Login := Login a;
              Name := Name a; Org := Org a; Role := aws.String (schema.str v) |}
  | None => a
  end.

(** The upsert starts by converting [d.Get("workspace_id")] to a string,
    in a resource whose schema is [resourceSchema]. *)
Definition resourceWorkspaceSamlConfigurationUpsert : Handler := fun conn d =>
  match schema.GetStringIn resourceSchema d "workspace_id" with
  | Panic msg => ([], Panic msg)
  | Ret id =>
      let d := schema.SetId d id in
      let events := [FindWorkspaceByID_call (schema.Id d)] in
      let '(workspace, err) := FindWorkspaceByID conn (schema.Id d) in
      if tfresource.NotFound err && negb (schema.IsNewResource d)
      then (events, Ret (None, schema.SetId d ""))
      else
        match err with
        | Some e =>
            (events, Ret (Some (Errorf "error reading Grafana Workspace (%s): %w" (Some e)), d))
        | None =>
            match workspace ≫= Authentication with
            | None => (events, nil_dereference)
            | Some authentication =>
                let authenticationProviders := Providers authentication in
                let roleValues :=
                  {| Editor := Some (schema.GetList d "editor_role_values");
                     Admin := schema.strs <$> schema.GetOk d "admin_role_values" |} in
                let samlConfiguration :=
                  {| RoleValues_ := Some roleValues;
                     AllowedOrganizations :=
                       schema.strs <$> schema.GetOk d "allowed_organizations";
                     AssertionAttributes_ := expandAssertionAttributes d;
                     IdpMetadata_ := None;
                     LoginValidityDuration := None |} in
                let input :=
                  {| AuthenticationProviders := authenticationProviders;
                     SamlConfiguration_ := Some samlConfiguration;
                     WorkspaceId := aws.String (schema.Id d) |} in
                let events := events ++ [UpdateWorkspaceAuthentication_call input] in
                match UpdateWorkspaceAuthentication conn input with
                | Some e =>
                    (events,
                     Ret (Some (Errorf "error creating Grafana Saml Configuration: %w" (Some e)), d))
                | None =>
                    let timeout := schema.Timeout d schema.TimeoutCreate in
                    let events :=
                      events ++ [waitWorkspaceSamlConfigurationCreated_call (schema.Id d) timeout] in
                    match waitWorkspaceSamlConfigurationCreated conn (schema.Id d) timeout with
                    | Some e =>
                        (events,
                         Ret (Some (Errorf "error waiting for Grafana Workspace Saml Configuration (%s) create: %w" (Some e)), d))
                    | None =>
                        let '(read_events, result) :=
                          resourceWorkspaceSamlConfigurationRead conn d in
                        (events ++ read_events, result)
                    end
                end
            end
        end
  end.

Definition resourceWorkspaceSamlConfigurationDelete : Handler := fun conn d =>
  let events := [FindWorkspaceByID_call (schema.Id d)] in
  let '(workspace, err) := FindWorkspaceByID conn (schema.Id d) in
  match err with
  | Some e =>
      (events,
       Ret (Some (Errorf "error deleting Grafana Workspace Saml Configuration (%s): %w" (Some e)), d))
  | None =>
      match workspace ≫= Authentication with
      | None => (events, nil_dereference)
      | Some authentication =>
          let input :=
            {| AuthenticationProviders := Providers authentication;
               SamlConfiguration_ := None;
               WorkspaceId := aws.String (schema.Id d) |} in
          let events := events ++ [UpdateWorkspaceAuthentication_call input] in
          match UpdateWorkspaceAuthentication conn input with
          | Some e =>
              (events,
               Ret (Some (Errorf "error deleting Grafana Workspace Saml Configuration (%s): %w" (Some e)), d))
          | None =>
              let timeout := schema.Timeout d schema.TimeoutDelete in
              let events :=
                events ++ [waitWorkspaceSamlConfigurationDeleted_call (schema.Id d) timeout] in
              match waitWorkspaceSamlConfigurationDeleted conn (schema.Id d) timeout with
              | Some e =>
                  (events,
                   Ret (Some (Errorf "error waiting for Grafana Workspace Saml Configuration (%s) delete: %w" (Some e)), d))
              | None => (events, Ret (None, d))
              end
          end
      end
  end.

Definition ResourceWorkspaceSamlConfiguration : schema.Resource Handler :=
  {| schema.Create := Some resourceWorkspaceSamlConfigurationUpsert;
     schema.Read := Some resourceWorkspaceSamlConfigurationRead;
     schema.Update := Some resourceWorkspaceSamlConfigurationUpsert;
     schema.Delete := Some resourceWorkspaceSamlConfigurationDelete;
     schema.CreateWithoutTimeout := None;
     schema.ReadWithoutTimeout := None;
     schema.UpdateWithoutTimeout := None;
     schema.DeleteWithoutTimeout := None;
     schema.Importer := true;
     schema.Schema_ := resourceSchema;
     schema.Timeouts :=
       list_to_map
         [ (schema.TimeoutCreate, (10 * time.Minute)%Z);
           (schema.TimeoutDelete, (10 * time.Minute)%Z) ] |}.
End grafana.

(** ** The framework resource interface *)

Module resource.
(** [resource.Resource]: a framework resource has all four handlers. *)
Record Resource (C R U D : Type) := {
  Create : C;
  Read : R;
  Update : U;
  Delete : D;
}.
Arguments Create {C R U D} r.
Arguments Read {C R U D} r.
Arguments Update {C R U D} r.
Arguments Delete {C R U D} r.
End resource.

(** [resourceSlot] with its methods. *)
Definition resourceSlot (V T : Type) (fx : lexv2models.AutoFlex V T) :=
  {| resource.Create := lexv2models.Create fx;
     resource.Read := lexv2models.Read fx;
     resource.Update := lexv2models.Update fx;
     resource.Delete := @lexv2models.Delete V T |}.

(** ** Sample runs *)

Module sample.
Import lexmodelsv2 lexv2models.

(** A slot as configured, with unit for the blocks left abstract. *)
Definition plan : resourceSlotData unit unit :=
  {| BotID := types.StringValue "BOT0000001";
     BotVersion := types.StringValue "DRAFT";
     Description := types.StringValue "pick a size";
     ID := types.StringUnknown;
     IntentID := types.StringValue "INTENT0001";
     LocaleID := types.StringValue "en_US";
     MultipleValuesSetting := types.ListNull;
     Name := types.StringValue "size";
     ObfuscationSetting := types.ListNull;
     Timeouts := tt;
     SlotTypeID := types.StringNull;
     ValueElicitationSettings := types.ListValue [tt] |}.

Definition slotID : string := "BOT0000001,DRAFT,INTENT0001,en_US,SLOT000001".

(** The slot as it sits in state after its creation. *)
Definition state : resourceSlotData unit unit :=
  set_ID plan (types.StringValue slotID).

(** An AutoFlex that copies the like-named scalar fields. *)
Definition fx : AutoFlex unit unit :=
  {| Expand_CreateSlotInput := fun p i =>
       ([], CreateSlotInput.mk
              (Some (types.ValueString (BotID p)))
              (Some (types.ValueString (BotVersion p)))
              (Some (types.ValueString (Description p)))
              (Some (types.ValueString (IntentID p)))
              (Some (types.ValueString (LocaleID p)))
              (CreateSlotInput.SlotName i)
              None);
     Expand_UpdateSlotInput := fun p i =>
       ([], UpdateSlotInput.mk
              (Some (types.ValueString (BotID p)))
              (Some (types.ValueString (BotVersion p)))
              (Some (types.ValueString (Description p)))
              (Some (types.ValueString (IntentID p)))
              (Some (types.ValueString (LocaleID p)))
              None
              (Some (types.ValueString (Name p)))
              None);
     Flatten_CreateSlotOutput := fun _ p => ([], p);
     Flatten_DescribeSlotOutput := fun _ p => ([], p) |}.

(** A service that creates the slot [slotId] for whatever it is asked. *)
Definition service (slotId : string) (botId : string) : Client :=
  {| CreateSlot := fun i =>
       (Some (CreateSlotOutput.mk (Some botId) (CreateSlotInput.BotVersion i)
                (CreateSlotInput.Description i) (CreateSlotInput.IntentId i)
                (CreateSlotInput.LocaleId i) (Some slotId)
                (CreateSlotInput.SlotName i) None), None);
     DescribeSlot := fun i =>
       (Some (DescribeSlotOutput.mk (DescribeSlotInput.BotId i)
                (DescribeSlotInput.BotVersion i) None (DescribeSlotInput.IntentId i)
                (DescribeSlotInput.LocaleId i) (DescribeSlotInput.SlotId i) None None),
        None);
     UpdateSlot := fun i =>
       (Some (UpdateSlotOutput.mk (UpdateSlotInput.SlotId i) (UpdateSlotInput.SlotName i)),
        None);
     DeleteSlot := fun _ => None |}.

(** A service whose UpdateSlot fails. *)
Definition failing_update : Client :=
  {| CreateSlot := CreateSlot (service "SLOT000001" "BOT0000001");
     DescribeSlot := DescribeSlot (service "SLOT000001" "BOT0000001");
     UpdateSlot := fun _ => (None, Some (APIError "ThrottlingException" "Rate exceeded"));
     DeleteSlot := fun _ => None |}.

(** The plan of an update that rewrites the description. *)
Definition replanned : resourceSlotData unit unit :=
  {| BotID := types.StringValue "BOT0000001";
     BotVersion := types.StringValue "DRAFT";
     Description := types.StringValue "pick another size";
     ID := types.StringValue slotID;
     IntentID := types.StringValue "INTENT0001";
     LocaleID := types.StringValue "en_US";
     MultipleValuesSetting := types.ListNull;
     Name := types.StringValue "size";
     ObfuscationSetting := types.ListNull;
     Timeouts := tt;
     SlotTypeID := types.StringNull;
     ValueElicitationSettings := types.ListValue [tt] |}.

(** The plan of an update that touches the value elicitation block only. *)
Definition elicitation_only : resourceSlotData unit unit :=
  {| BotID := types.StringValue "BOT0000001";
     BotVersion := types.StringValue "DRAFT";
     Description := types.StringValue "pick a size";
     ID := types.StringValue slotID;
     IntentID := types.StringValue "INTENT0001";
     LocaleID := types.StringValue "en_US";
     MultipleValuesSetting := types.ListNull;
     Name := types.StringValue "size";
     ObfuscationSetting := types.ListNull;
     Timeouts := tt;
     SlotTypeID := types.StringNull;
     ValueElicitationSettings := types.ListValue [tt; tt] |}.

(** The response an update starts from: the prior state, no diagnostics. *)
Definition prior_response : Response unit unit :=
  {| resp_Diagnostics := []; resp_State := Some state |}.

Definition blank_response : Response unit unit :=
  {| resp_Diagnostics := []; resp_State := None |}.

Definition decoded (d : resourceSlotData unit unit) : Source unit unit :=
  {| Get_value := d; Get_diags := [] |}.
End sample.

Module sample_grafana.
Import grafana.

Definition workspace_id : string := "g-0123456789".

(** The configuration: the editor role values. *)
Definition d : schema.ResourceData :=
  {| schema.Id := "";
     schema.attrs := {[ "editor_role_values" := schema.VList ["editor"] ]};
     schema.IsNewResource := true;
     schema.timeouts :=
       {[ schema.TimeoutCreate := (10 * time.Minute)%Z;
          schema.TimeoutDelete := (10 * time.Minute)%Z ]} |}.

(** The resource data once the ID is set. *)
Definition stored : schema.ResourceData := schema.SetId d workspace_id.

Definition workspace : WorkspaceDescription :=
  {| Authentication := Some {| Providers := Some ["SAML"] |} |}.

(** A SAML configuration with role values and metadata and without
    assertion attributes. *)
Definition no_assertions : SamlAuthentication :=
  {| Configuration :=
       Some {| AllowedOrganizations := None;
               AssertionAttributes_ := None;
               IdpMetadata_ := Some {| Url := Some "https://idp.example/metadata"; Xml := None |};
               LoginValidityDuration := None;
               RoleValues_ := Some {| Admin := None; Editor := Some ["editor"] |} |};
     Status := Some "CONFIGURED" |}.

(** A SAML configuration with all three nested structures. *)
Definition complete : SamlAuthentication :=
  {| Configuration :=
       Some {| AllowedOrganizations := None;
               AssertionAttributes_ := Some emptyAssertionAttributes;
               IdpMetadata_ := Some {| Url := Some "https://idp.example/metadata"; Xml := None |};
               LoginValidityDuration := None;
               RoleValues_ := Some {| Admin := None; Editor := Some ["editor"] |} |};
     Status := Some "CONFIGURED" |}.

(** A service on which every call succeeds and that reports [saml]. *)
Definition conn (saml : SamlAuthentication) : Conn :=
  {| UpdateWorkspaceAuthentication := fun _ => None;
     FindWorkspaceByID := fun _ => (Some workspace, None);
     FindSamlConfigurationByID := fun _ => (Some saml, None);
     waitWorkspaceSamlConfigurationCreated := fun _ _ => None;
     waitWorkspaceSamlConfigurationDeleted := fun _ _ => None |}.

(** A service that does not find the workspace. *)
Definition no_workspace : Conn :=
  {| UpdateWorkspaceAuthentication := fun _ => None;
     FindWorkspaceByID := fun _ => (None, Some (NotFoundError None));
     FindSamlConfigurationByID := fun _ => (None, Some (NotFoundError None));
     waitWorkspaceSamlConfigurationCreated := fun _ _ => None;
     waitWorkspaceSamlConfigurationDeleted := fun _ _ => None |}.
End sample_grafana.

Module sample_macie.
Import macie2.

Definition account : string := "123456789012".

Definition d : schema.ResourceData :=
  {| schema.Id := "";
     schema.attrs := {[ "admin_account_id" := schema.VString account ]};
     schema.IsNewResource := true;
     schema.timeouts := ∅ |}.

(** A fresh world whose generator hands out [token]. *)
Definition world (token : string) : World :=
  {| now := 0; unique_ids := fun _ => token; ids_drawn := 0; calls := 0; sent := [] |}.

Definition listing : list (option ListOrganizationAdminAccountsOutput) :=
  [Some {| AdminAccounts :=
             [Some {| AccountId := Some account; Status := Some "ENABLED" |}] |}].

(** A service that answers every EnableOrganizationAdminAccount at once
    with [err]. *)
Definition always (err : error) : AWSClient :=
  {| Macie2Client :=
       {| EnableOrganizationAdminAccount_answers := fun _ =>
            {| latency := 0; answer := err |};
          DisableOrganizationAdminAccount_answer := err;
          ListOrganizationAdminAccounts_pages := listing;
          ListOrganizationAdminAccounts_err := None |} |}.

(** A service whose first two calls take two minutes each and fail with a
    client error, and whose later calls succeed. *)
Definition slow_then_fine : AWSClient :=
  {| Macie2Client :=
       {| EnableOrganizationAdminAccount_answers := fun n =>
            if (n <? 2)%nat
            then {| latency := 120000000000;
                    answer := Some (APIError ErrorCodeClientError "not ready") |}
            else {| latency := 0; answer := None |};
          DisableOrganizationAdminAccount_answer := None;
          ListOrganizationAdminAccounts_pages := listing;
          ListOrganizationAdminAccounts_err := None |} |}.

(** A service whose first call takes five minutes, and whose later
    calls succeed at once. *)
Definition hangs_then_fine : AWSClient :=
  {| Macie2Client :=
       {| EnableOrganizationAdminAccount_answers := fun n =>
            if (n <? 1)%nat
            then {| latency := 300000000000;
                    answer := Some (APIError ErrorCodeClientError "not ready") |}
            else {| latency := 0; answer := None |};
          DisableOrganizationAdminAccount_answer := None;
          ListOrganizationAdminAccounts_pages := listing;
          ListOrganizationAdminAccounts_err := None |} |}.

(** A rule that reports a bare timeout at the deadline, whatever the
    attempts came back with. *)
Definition bare_timeout : error -> error := fun _ => Some (TimeoutError None).
End sample_macie.

(** ** Listings and further sample values *)

(** The accounts of all pages of a listing, in the order they come. *)
Definition allAdminAccounts
    (pages : list (option macie2.ListOrganizationAdminAccountsOutput))
    : list (option macie2.AdminAccount) :=
  concat (map (fun page =>
                 match page with
                 | Some page => macie2.AdminAccounts page
                 | None => []
                 end) pages).

Module sample_macie_stored.
Import macie2.

(** The resource as it sits in state after its creation. *)
Definition d : schema.ResourceData :=
  {| schema.Id := sample_macie.account;
     schema.attrs := {[ "admin_account_id" := schema.VString sample_macie.account ]};
     schema.IsNewResource := false;
     schema.timeouts := ∅ |}.

(** A service that lists the pages [pages] and then reports [err]. *)
Definition lists (pages : list (option ListOrganizationAdminAccountsOutput))
    (err : error) : AWSClient :=
  {| Macie2Client :=
       {| EnableOrganizationAdminAccount_answers := fun _ =>
            {| latency := 0; answer := None |};
          DisableOrganizationAdminAccount_answer := None;
          ListOrganizationAdminAccounts_pages := pages;
          ListOrganizationAdminAccounts_err := err |} |}.

(** Two pages: a nil page, and a page with a nil entry, another account
    and the sample account. *)
Definition two_pages : list (option ListOrganizationAdminAccountsOutput) :=
  [ None;
    Some {| AdminAccounts :=
              [ None;
                Some {| AccountId := Some "999999999999"; Status := Some "ENABLED" |};
                Some {| AccountId := Some sample_macie.account;
                        Status := Some "ENABLED" |} ] |} ].

(** A page with another account alone. *)
Definition other_account : list (option ListOrganizationAdminAccountsOutput) :=
  [ Some {| AdminAccounts :=
              [ Some {| AccountId := Some "999999999999"; Status := Some "ENABLED" |} ] |} ].

(** The new sample resource once Create has set its ID. *)
Definition created : schema.ResourceData :=
  schema.SetId sample_macie.d sample_macie.account.
End sample_macie_stored.

Module sample_lex.
Import lexmodelsv2 lexv2models.

(** A state whose ID is not a composite of five parts. *)
Definition malformed : resourceSlotData unit unit :=
  set_ID sample.plan (types.StringValue "SLOT000001").

(** A service on which the slot is gone. *)
Definition gone : Client :=
  {| CreateSlot := CreateSlot (sample.service "SLOT000001" "BOT0000001");
     DescribeSlot := fun _ => (None, Some (ResourceNotFoundException "no such slot"));
     UpdateSlot := UpdateSlot (sample.service "SLOT000001" "BOT0000001");
     DeleteSlot := fun _ => Some (ResourceNotFoundException "no such slot") |}.
End sample_lex.

(** * Properties *)

(** ** Splitting and joining *)

Section SplitJoin.
Variable sep : ascii.

Local Abbreviation count_byte := (strings.count_byte sep).

Lemma has_byte_count s :
  strings.has_byte sep s = false <-> count_byte s = 0.
Proof.
  induction s as [|c s IH]; simpl; [tauto|].
  destruct (Ascii.eqb c sep); simpl; [split; discriminate | exact IH].
Qed.

Lemma count_byte_app a b :
  count_byte (a +:+ b) = count_byte a + count_byte b.
Proof. induction a as [|c a IH]; simpl; [reflexivity | rewrite IH; lia]. Qed.

Lemma Split_length s :
  length (strings.Split s sep) = S (count_byte s).
Proof.
  induction s as [|c s IH]; simpl; [reflexivity|].
  destruct (Ascii.eqb c sep); simpl; [now rewrite IH|].
  destruct (strings.Split s sep); simpl in *; lia.
Qed.

Lemma Split_app_sep p rest :
  strings.has_byte sep p = false ->
  strings.Split (p +:+ String sep rest) sep = p :: strings.Split rest sep.
Proof.
  induction p as [|c p IH]; simpl.
  - intros _. now rewrite Ascii.eqb_refl.
  - destruct (Ascii.eqb c sep); simpl; [discriminate|].
    intros H. now rewrite (IH H).
Qed.

Lemma Split_no_sep p :
  strings.has_byte sep p = false -> strings.Split p sep = [p].
Proof.
  induction p as [|c p IH]; simpl; [reflexivity|].
  destruct (Ascii.eqb c sep); simpl; [discriminate|].
  intros H. now rewrite (IH H).
Qed.

Lemma Split_Join parts :
  parts <> [] ->
  Forall (fun p => strings.has_byte sep p = false) parts ->
  strings.Split (strings.Join parts (String sep "")) sep = parts.
Proof.
  induction parts as [|p [|q rest] IH]; intros Hne Hall.
  - congruence.
  - inversion Hall; subst. now apply Split_no_sep.
  - inversion Hall as [|? ? Hp Hrest]; subst.
    change (strings.Join (p :: q :: rest) (String sep ""))
      with (p +:+ String sep "" +:+ strings.Join (q :: rest) (String sep "")).
    change (String sep "" +:+ strings.Join (q :: rest) (String sep ""))
      with (String sep (strings.Join (q :: rest) (String sep ""))).
    rewrite (Split_app_sep _ _ Hp). f_equal. apply IH; [discriminate | assumption].
Qed.

Lemma count_byte_Join parts :
  parts <> [] ->
  count_byte (strings.Join parts (String sep "")) =
  length parts - 1 + list_sum (map count_byte parts).
Proof.
  induction parts as [|p [|q rest] IH]; intros Hne.
  - congruence.
  - simpl. lia.
  - change (strings.Join (p :: q :: rest) (String sep ""))
      with (p +:+ String sep (strings.Join (q :: rest) (String sep ""))).
    rewrite count_byte_app. cbn [strings.count_byte]. rewrite Ascii.eqb_refl.
    rewrite IH by discriminate. simpl. lia.
Qed.

(** A join splits back into as many pieces as went in only when no piece
    holds the separator. *)
Lemma Split_Join_length parts :
  parts <> [] ->
  length (strings.Split (strings.Join parts (String sep "")) sep) = length parts ->
  Forall (fun p => strings.has_byte sep p = false) parts.
Proof.
  intros Hne Hlen. rewrite Split_length, count_byte_Join in Hlen by assumption.
  assert (Hsum : list_sum (map count_byte parts) = 0).
  { destruct parts; [congruence | simpl in *; lia]. }
  clear Hlen Hne. induction parts as [|p parts IH]; constructor.
  - apply has_byte_count. simpl in Hsum. lia.
  - apply IH. simpl in Hsum. lia.
Qed.
End SplitJoin.

Lemma emptyParts_nil parts i :
  flex.emptyParts i parts = [] <-> Forall (fun p => p <> "") parts.
Proof.
  revert i. induction parts as [|p parts IH]; intros i; simpl.
  - split; [constructor | reflexivity].
  - unfold flex.blank. destruct (String.eqb_spec p "") as [->|Hne].
    + split; [discriminate | intros H; inversion H; congruence].
    + rewrite IH. split; [now constructor | intros H; now inversion H].
Qed.

(** ** Composite resource IDs *)

Lemma FlattenResourceId_ok parts n :
  length parts = n ->
  Forall (fun p => p <> "") parts ->
  flex.FlattenResourceId parts n false =
  (strings.Join parts (String flex.ResourceIdSeparator ""), None).
Proof.
  intros Hlen Hall. unfold flex.FlattenResourceId.
  rewrite (proj2 (Nat.eqb_eq _ _) Hlen). simpl.
  now rewrite (proj2 (emptyParts_nil parts 0) Hall).
Qed.

(** Parts free of the separator come back as they went in. *)
Lemma ExpandResourceId_Join parts n :
  length parts = n -> 1 < n ->
  Forall (fun p => p <> "") parts ->
  Forall (fun p => strings.has_byte flex.ResourceIdSeparator p = false) parts ->
  flex.ExpandResourceId (strings.Join parts (String flex.ResourceIdSeparator "")) n false =
  (Some parts, None).
Proof.
  intros Hlen Hn Hblank Hsep. unfold flex.ExpandResourceId.
  rewrite Split_Join; [|destruct parts; simpl in *; [lia | discriminate] | assumption].
  rewrite Hlen. destruct (Nat.leb_spec n 1); [lia|].
  rewrite Nat.eqb_refl. simpl.
  now rewrite (proj2 (emptyParts_nil parts 0) Hblank).
Qed.

(** A part that holds the separator makes the ID one the parser refuses. *)
Lemma ExpandResourceId_Join_refused parts n :
  length parts = n -> 0 < n ->
  Exists (fun p => strings.has_byte flex.ResourceIdSeparator p = true) parts ->
  exists e,
    flex.ExpandResourceId (strings.Join parts (String flex.ResourceIdSeparator "")) n false =
    (None, Some e).
Proof.
  intros Hlen Hn Hex. unfold flex.ExpandResourceId.
  destruct (length _ <=? 1)%nat eqn:H1; [eauto|].
  destruct (Nat.eqb_spec
              (length (strings.Split (strings.Join parts (String flex.ResourceIdSeparator ""))
                         flex.ResourceIdSeparator)) n) as [Heq|Hne]; simpl; [|eauto].
  exfalso. rewrite <- Hlen in Heq.
  apply Split_Join_length in Heq; [|destruct parts; simpl in *; [lia | discriminate]].
  apply Exists_exists in Hex as (p & Hin & Hp).
  rewrite Forall_forall in Heq. specialize (Heq p Hin). congruence.
Qed.

Section SlotID.
Context {V T : Type}.
Variable fx : lexv2models.AutoFlex V T.
Variable conn : lexmodelsv2.Client.

Import lexmodelsv2 lexv2models.

(** C2, as amended.  When the plan decodes and expands without error and
    CreateSlot answers with [out], whose five identifiers are not blank:
    Create assigns to the plan, before flattening [out] into it, the join
    of BotId, BotVersion, IntentId, LocaleId and SlotId (in that order, part
    count 5) as its ID.  If none of the five holds the separator,
    findSlotByID parses that ID back into exactly these five parts and
    describes the slot with them, field by field; if one of them does,
    findSlotByID refuses the ID and sends nothing. *)
Theorem Create_findSlotByID_round_trip
    (req : CreateRequest V T) (resp : Response V T)
    (ediags : Diagnostics) (in_ : CreateSlotInput.t) (out : CreateSlotOutput.t) :
  let plan := Get_value (CreateRequest_Plan req) in
  let resp1 := Append resp (Get_diags (CreateRequest_Plan req)) in
  let parts :=
    [ aws.ToString (CreateSlotOutput.BotId out);
      aws.ToString (CreateSlotOutput.BotVersion out);
      aws.ToString (CreateSlotOutput.IntentId out);
      aws.ToString (CreateSlotOutput.LocaleId out);
      aws.ToString (CreateSlotOutput.SlotId out) ] in
  let id := strings.Join parts (String flex.ResourceIdSeparator "") in
  HasError (resp_Diagnostics resp1) = false ->
  Expand_CreateSlotInput fx plan
    (CreateSlotInput.mk None None None None None
       (aws.String (types.ValueString (Name plan))) None) = (ediags, in_) ->
  HasError (resp_Diagnostics (Append resp1 ediags)) = false ->
  CreateSlot conn in_ = (Some out, None) ->
  Forall (fun p => p <> "") parts ->
  flex.FlattenResourceId parts slotIDPartCount false = (id, None) /\
  Create fx conn req resp =
    (let '(fdiags, flat) :=
       Flatten_CreateSlotOutput fx out (set_ID plan (types.StringValue id)) in
     let resp3 := Append (Append resp1 ediags) fdiags in
     if HasError (resp_Diagnostics resp3) then resp3 else State_Set resp3 flat,
     [CreateSlot_req in_]) /\
  (Forall (fun p => strings.has_byte flex.ResourceIdSeparator p = false) parts ->
   flex.ExpandResourceId id slotIDPartCount false = (Some parts, None) /\
   exists found,
     findSlotByID conn id =
     Ret (found,
          [DescribeSlot_req
             {| DescribeSlotInput.BotId := Some (aws.ToString (CreateSlotOutput.BotId out));
                DescribeSlotInput.BotVersion := Some (aws.ToString (CreateSlotOutput.BotVersion out));
                DescribeSlotInput.IntentId := Some (aws.ToString (CreateSlotOutput.IntentId out));
                DescribeSlotInput.LocaleId := Some (aws.ToString (CreateSlotOutput.LocaleId out));
                DescribeSlotInput.SlotId := Some (aws.ToString (CreateSlotOutput.SlotId out)) |}])) /\
  (Exists (fun p => strings.has_byte flex.ResourceIdSeparator p = true) parts ->
   exists e, findSlotByID conn id = Ret (inr e, [])).
Proof.
  intros plan resp1 parts id Hdec Hexp Hexp_ok Hcreate Hblank.
  assert (Hflat : flex.FlattenResourceId parts slotIDPartCount false = (id, None))
    by (apply FlattenResourceId_ok; [reflexivity | assumption]).
  split; [exact Hflat|]. split; [|split].
  - unfold Create. fold plan. fold resp1. rewrite Hdec, Hexp, Hexp_ok, Hcreate.
    fold parts. rewrite Hflat.
    destruct (Flatten_CreateSlotOutput fx out _) as [fdiags flat].
    match goal with |- context [if ?b then _ else _] => destruct b end; reflexivity.
  - intros Hsep.
    assert (Hparse : flex.ExpandResourceId id slotIDPartCount false = (Some parts, None))
      by (apply ExpandResourceId_Join; [reflexivity | unfold slotIDPartCount; lia | assumption..]).
    split; [exact Hparse|].
    unfold findSlotByID. rewrite Hparse. simpl.
    destruct (DescribeSlot conn _) as [[o|] [e|]]; simpl;
      try destruct (errs.IsA_ResourceNotFoundException_Err e); eauto.
  - intros Hex.
    destruct (ExpandResourceId_Join_refused parts slotIDPartCount eq_refl
                ltac:(unfold slotIDPartCount; lia) Hex) as [e He].
    exists e. unfold findSlotByID. fold id in He. now rewrite He.
Qed.
End SlotID.

(** C2 on the sample slot: its five identifiers come back from its ID. *)
Lemma Create_findSlotByID_round_trip_witness :
  flex.FlattenResourceId
    ["BOT0000001"; "DRAFT"; "INTENT0001"; "en_US"; "SLOT000001"]
    lexv2models.slotIDPartCount false = (sample.slotID, None) /\
  exists found,
    lexv2models.findSlotByID (sample.service "SLOT000001" "BOT0000001") sample.slotID =
    Ret (found,
         [lexmodelsv2.DescribeSlot_req
            (lexmodelsv2.DescribeSlotInput.mk (Some "BOT0000001") (Some "DRAFT")
               (Some "INTENT0001") (Some "en_US") (Some "SLOT000001"))]).
Proof.
  destruct (Create_findSlotByID_round_trip sample.fx
              (sample.service "SLOT000001" "BOT0000001")
              {| lexv2models.CreateRequest_Plan := sample.decoded sample.plan |}
              sample.blank_response []
              (lexmodelsv2.CreateSlotInput.mk (Some "BOT0000001") (Some "DRAFT")
                 (Some "pick a size") (Some "INTENT0001") (Some "en_US")
                 (Some "size") None)
              (lexmodelsv2.CreateSlotOutput.mk (Some "BOT0000001") (Some "DRAFT")
                 (Some "pick a size") (Some "INTENT0001") (Some "en_US")
                 (Some "SLOT000001") (Some "size") None)
              eq_refl eq_refl eq_refl eq_refl
              ltac:(repeat constructor; discriminate))
    as (Hflat & _ & Hparse & _).
  split; [exact Hflat|].
  apply Hparse. repeat constructor.
Defined.

(** C2: a bot identifier that holds the separator is packed by Create
    into an ID that findSlotByID does not parse back. *)
Lemma Create_findSlotByID_separator_in_part :
  lexv2models.resp_State
    (fst (lexv2models.Create sample.fx (sample.service "SLOT000001" "BOT,1")
            {| lexv2models.CreateRequest_Plan := sample.decoded sample.plan |}
            sample.blank_response)) =
  Some (lexv2models.set_ID sample.plan
          (types.StringValue "BOT,1,DRAFT,INTENT0001,en_US,SLOT000001")) /\
  lexv2models.findSlotByID (sample.service "SLOT000001" "BOT,1")
    "BOT,1,DRAFT,INTENT0001,en_US,SLOT000001" =
  Ret (inr (Errorf "unexpected format for ID (%s), expected (%d) parts separated by (%s)" None),
       []).
Proof. split; vm_compute; reflexivity. Qed.

(** ** Delete of a slot *)

(** C3: Delete does not parse the stored ID.  Whatever the state holds,
    the DeleteSlotInput it sends carries the whole composite ID in each of
    its five fields; for the ID of the sample slot none of the five is the
    component findSlotByID would put there. *)
Theorem Delete_sends_whole_ID_in_every_field :
  (forall (V T : Type) (conn : lexmodelsv2.Client)
          (req : lexv2models.DeleteRequest V T) (resp : lexv2models.Response V T),
     let id :=
       types.ValueString
         (lexv2models.ID (lexv2models.Get_value (lexv2models.DeleteRequest_State req))) in
     snd (lexv2models.Delete conn req resp) =
     if HasError (lexv2models.resp_Diagnostics resp ++
                  lexv2models.Get_diags (lexv2models.DeleteRequest_State req))
     then []
     else [lexmodelsv2.DeleteSlot_req
             (lexmodelsv2.DeleteSlotInput.mk (Some id) (Some id) (Some id) (Some id) (Some id))]) /\
  snd (lexv2models.Delete (sample.service "SLOT000001" "BOT0000001")
         {| lexv2models.DeleteRequest_State := sample.decoded sample.state |}
         {| lexv2models.resp_Diagnostics := [];
            lexv2models.resp_State := Some sample.state |}) =
  [lexmodelsv2.DeleteSlot_req
     (lexmodelsv2.DeleteSlotInput.mk (Some sample.slotID) (Some sample.slotID)
        (Some sample.slotID) (Some sample.slotID) (Some sample.slotID))] /\
  (snd <$> lexv2models.findSlotByID (sample.service "SLOT000001" "BOT0000001") sample.slotID) =
  Ret [lexmodelsv2.DescribeSlot_req
         (lexmodelsv2.DescribeSlotInput.mk (Some "BOT0000001") (Some "DRAFT")
            (Some "INTENT0001") (Some "en_US") (Some "SLOT000001"))].
Proof.
  split; [|split; vm_compute; reflexivity].
  intros V T conn req resp id. unfold lexv2models.Delete. cbn [lexv2models.Append lexv2models.resp_Diagnostics].
  destruct (HasError _); [reflexivity|].
  fold id. destruct (lexmodelsv2.DeleteSlot conn _) as [e|]; [|reflexivity].
  destruct (errs.IsA_ResourceNotFoundException _); reflexivity.
Qed.

(** ** Update of a slot *)

Lemma String_Equal_eq a b : types.String_Equal a b = true <-> a = b.
Proof.
  destruct a as [| |x], b as [| |y]; simpl; split; try congruence.
  - intros H. apply String.eqb_eq in H. now subst.
  - intros [= ->]. apply String.eqb_refl.
Qed.

Lemma elems_Equal_eq {A} (eq : A -> A -> bool) :
  (forall x y, eq x y = true <-> x = y) ->
  forall xs ys, types.elems_Equal eq xs ys = true <-> xs = ys.
Proof.
  intros Heq. induction xs as [|x xs IH]; intros [|y ys]; simpl; split; try congruence.
  - intros H. apply andb_true_iff in H as [Hx Hxs].
    apply Heq in Hx. apply IH in Hxs. now subst.
  - intros [= -> ->]. apply andb_true_iff. split; [now apply Heq | now apply IH].
Qed.

Lemma List_Equal_eq {A} (eq : A -> A -> bool) :
  (forall x y, eq x y = true <-> x = y) ->
  forall a b, types.List_Equal eq a b = true <-> a = b.
Proof.
  intros Heq [| |xs] [| |ys]; simpl; split; try congruence.
  - intros H. f_equal. now apply (elems_Equal_eq eq Heq).
  - intros [= ->]. now apply (elems_Equal_eq eq Heq).
Qed.

Lemma ObfuscationSettingData_Equal_eq a b :
  lexv2models.ObfuscationSettingData_Equal a b = true <-> a = b.
Proof.
  unfold lexv2models.ObfuscationSettingData_Equal. rewrite String_Equal_eq.
  destruct a, b; simpl; split; congruence.
Qed.

Section SlotUpdate.
Context {V T : Type}.
Variable fx : lexv2models.AutoFlex V T.
Variable conn : lexmodelsv2.Client.

Import lexmodelsv2 lexv2models.

(** The four attributes [slotHasChanges] compares. *)
Lemma slotHasChanges_false (plan state : resourceSlotData V T) :
  slotHasChanges plan state = false <->
  Description plan = Description state /\ Name plan = Name state /\
  SlotTypeID plan = SlotTypeID state /\
  ObfuscationSetting plan = ObfuscationSetting state.
Proof.
  unfold slotHasChanges.
  rewrite !orb_false_iff, !negb_false_iff, !String_Equal_eq,
    (List_Equal_eq _ ObfuscationSettingData_Equal_eq).
  tauto.
Qed.

(** C9, as amended.  For a plan and a state that decode without error:
    Update sends at most one request; it sends UpdateSlot exactly when plan
    and state differ in description, name, slot_type_id or
    obfuscation_setting and expanding the plan reports no error; a plan
    that agrees with the state on these four sends nothing and is written
    to the state; and in general the plan is written to the state when the
    run raises no error diagnostic, while a run that raises one leaves the
    state as it was. *)
Theorem Update_calls_UpdateSlot_iff_changed
    (req : UpdateRequest V T) (resp : Response V T) :
  let plan := Get_value (UpdateRequest_Plan req) in
  let state := Get_value (UpdateRequest_State req) in
  let decoded :=
    Append (Append resp (Get_diags (UpdateRequest_Plan req)))
      (Get_diags (UpdateRequest_State req)) in
  let expanded := Expand_UpdateSlotInput fx plan UpdateSlotInput.zero in
  let same :=
    Description plan = Description state /\ Name plan = Name state /\
    SlotTypeID plan = SlotTypeID state /\
    ObfuscationSetting plan = ObfuscationSetting state in
  let result := Update fx conn req resp in
  HasError (resp_Diagnostics decoded) = false ->
  (snd result = [] \/ snd result = [UpdateSlot_req (snd expanded)]) /\
  (snd result = [UpdateSlot_req (snd expanded)] <->
   ~ same /\ HasError (resp_Diagnostics decoded ++ fst expanded) = false) /\
  (same -> snd result = [] /\ resp_State (fst result) = Some plan) /\
  (HasError (resp_Diagnostics (fst result)) = false ->
   resp_State (fst result) = Some plan) /\
  (HasError (resp_Diagnostics (fst result)) = true ->
   resp_State (fst result) = resp_State resp).
Proof.
  intros plan state decoded expanded same result Hdec.
  assert (Hsame : slotHasChanges plan state = false <-> same)
    by apply slotHasChanges_false.
  subst result. unfold Update. fold plan state decoded. rewrite Hdec.
  destruct (slotHasChanges plan state) eqn:Hch.
  - assert (Hdiff : ~ same) by (intros Hs; apply Hsame in Hs; congruence).
    fold expanded. destruct expanded as [ediags input]. cbn [fst snd].
    cbn [Append resp_Diagnostics resp_State].
    destruct (HasError (resp_Diagnostics decoded ++ ediags)) eqn:Hexp.
    + cbn [fst snd resp_Diagnostics resp_State Append]. rewrite Hexp.
      repeat split; try tauto; try discriminate.
    + destruct (UpdateSlot conn input) as [[out|] [e|]];
        cbn [fst snd resp_Diagnostics resp_State Append Problem State_Set];
        rewrite ?Hexp; cbn [fst snd resp_Diagnostics resp_State Append Problem State_Set];
        unfold AddError, HasError; rewrite ?existsb_app; simpl; rewrite ?orb_true_r;
        repeat split; try tauto; try discriminate; try (intros; exfalso; tauto).
  - assert (Hs : same) by now apply Hsame.
    cbn [fst snd resp_Diagnostics resp_State State_Set]. rewrite Hdec.
    repeat split; try tauto; try discriminate.
Qed.
End SlotUpdate.

(** C9 on the sample slot: a changed description is sent and written. *)
Lemma Update_calls_UpdateSlot_iff_changed_witness :
  snd (lexv2models.Update sample.fx (sample.service "SLOT000001" "BOT0000001")
         {| lexv2models.UpdateRequest_Plan := sample.decoded sample.replanned;
            lexv2models.UpdateRequest_State := sample.decoded sample.state |}
         sample.prior_response) =
  [lexmodelsv2.UpdateSlot_req
     (lexmodelsv2.UpdateSlotInput.mk (Some "BOT0000001") (Some "DRAFT")
        (Some "pick another size") (Some "INTENT0001") (Some "en_US") None
        (Some "size") None)] /\
  lexv2models.resp_State
    (fst (lexv2models.Update sample.fx (sample.service "SLOT000001" "BOT0000001")
            {| lexv2models.UpdateRequest_Plan := sample.decoded sample.replanned;
               lexv2models.UpdateRequest_State := sample.decoded sample.state |}
            sample.prior_response)) = Some sample.replanned.
Proof.
  destruct (Update_calls_UpdateSlot_iff_changed sample.fx
              (sample.service "SLOT000001" "BOT0000001")
              {| lexv2models.UpdateRequest_Plan := sample.decoded sample.replanned;
                 lexv2models.UpdateRequest_State := sample.decoded sample.state |}
              sample.prior_response eq_refl)
    as (_ & Hsent & _ & Hwritten & _).
  split.
  - apply Hsent. split; [|reflexivity]. intros (Hdescription & _). discriminate Hdescription.
  - apply Hwritten. reflexivity.
Defined.

(** C9: when UpdateSlot fails, the planned description is not written:
    the state stays the prior one. *)
Lemma Update_failed_call_keeps_prior_state :
  snd (lexv2models.Update sample.fx sample.failing_update
         {| lexv2models.UpdateRequest_Plan := sample.decoded sample.replanned;
            lexv2models.UpdateRequest_State := sample.decoded sample.state |}
         sample.prior_response) =
  [lexmodelsv2.UpdateSlot_req
     (lexmodelsv2.UpdateSlotInput.mk (Some "BOT0000001") (Some "DRAFT")
        (Some "pick another size") (Some "INTENT0001") (Some "en_US") None
        (Some "size") None)] /\
  lexv2models.Description <$>
    lexv2models.resp_State
      (fst (lexv2models.Update sample.fx sample.failing_update
              {| lexv2models.UpdateRequest_Plan := sample.decoded sample.replanned;
                 lexv2models.UpdateRequest_State := sample.decoded sample.state |}
              sample.prior_response)) =
  Some (types.StringValue "pick a size") /\
  lexv2models.Description sample.replanned = types.StringValue "pick another size".
Proof. repeat split; vm_compute; reflexivity. Qed.

(** ** The Grafana SAML configuration handlers *)

Section GrafanaRead.
Import grafana.

(** C10.  When FindSamlConfigurationByID returns without an error, Read
    takes no error branch and runs to its end without a nil dereference
    exactly when the SAML authentication, its configuration and the
    configuration's role values, assertion attributes and IdP metadata are
    all non-nil; and on the sample response that has no assertion
    attributes it panics on a nil dereference. *)
Theorem Read_needs_nested_structures :
  (forall (conn : Conn) (d : schema.ResourceData) (saml : option SamlAuthentication),
     FindSamlConfigurationByID conn (schema.Id d) = (saml, None) ->
     panicked (snd (resourceWorkspaceSamlConfigurationRead conn d)) = false <->
     exists s c r a i,
       saml = Some s /\ Configuration s = Some c /\ RoleValues_ c = Some r /\
       AssertionAttributes_ c = Some a /\ IdpMetadata_ c = Some i) /\
  FindSamlConfigurationByID (sample_grafana.conn sample_grafana.no_assertions)
    (schema.Id sample_grafana.stored) = (Some sample_grafana.no_assertions, None) /\
  snd (resourceWorkspaceSamlConfigurationRead
         (sample_grafana.conn sample_grafana.no_assertions) sample_grafana.stored) =
  nil_dereference.
Proof.
  split; [|split; reflexivity].
  intros conn d saml Hfind. unfold resourceWorkspaceSamlConfigurationRead.
  rewrite Hfind. cbn [tfresource.NotFound andb snd].
  split.
  - destruct saml as [s|]; cbn [deref mbind Outcome_bind]; [|discriminate].
    destruct (Configuration s) as [c|] eqn:Hc; cbn [deref mbind Outcome_bind];
      [|cbn; discriminate].
    destruct (RoleValues_ c) as [r|] eqn:Hr; cbn [deref mbind Outcome_bind];
      [|cbn; discriminate].
    destruct (AssertionAttributes_ c) as [a|] eqn:Ha; cbn [deref mbind Outcome_bind];
      [|cbn; discriminate].
    destruct (IdpMetadata_ c) as [i|] eqn:Hi; cbn [deref mbind Outcome_bind];
      [|cbn; discriminate].
    intros _. exists s, c, r, a, i. repeat split; assumption.
  - intros (s & c & r & a & i & -> & Hc & Hr & Ha & Hi).
    cbn [deref mbind Outcome_bind]. rewrite Hc. cbn [deref mbind Outcome_bind].
    rewrite Hr. cbn [deref mbind Outcome_bind]. rewrite Ha. cbn [deref mbind Outcome_bind].
    rewrite Hi. reflexivity.
Qed.
End GrafanaRead.

Section Waiting.
Import grafana.

(** C5, as amended.  In a delete of the Grafana SAML configuration that
    got UpdateWorkspaceAuthentication through, the very next thing done is
    waitWorkspaceSamlConfigurationDeleted on the workspace with the delete
    timeout, after which the delete does nothing more, and it returns
    without error only if that wait did.  The Lex V2 slot Create sends
    CreateSlot and nothing else: it does not poll. *)
Theorem handlers_wait_after_update :
  (forall (conn : Conn) (d : schema.ResourceData) input,
     let id := schema.Id d in
     let timeout := schema.Timeout d schema.TimeoutDelete in
     let run := resourceWorkspaceSamlConfigurationDelete conn d in
     In (UpdateWorkspaceAuthentication_call input) (fst run) ->
     UpdateWorkspaceAuthentication conn input = None ->
     fst run =
       [FindWorkspaceByID_call id; UpdateWorkspaceAuthentication_call input;
        waitWorkspaceSamlConfigurationDeleted_call id timeout] /\
     (forall d', snd run = Ret (None, d') ->
                 waitWorkspaceSamlConfigurationDeleted conn id timeout = None)) /\
  (forall (V T : Type) (fx : lexv2models.AutoFlex V T) (conn : lexmodelsv2.Client)
          (req : lexv2models.CreateRequest V T) (resp : lexv2models.Response V T),
     snd (lexv2models.Create fx conn req resp) = [] \/
     exists input,
       snd (lexv2models.Create fx conn req resp) = [lexmodelsv2.CreateSlot_req input]).
Proof.
  split.
  - intros conn d input id timeout run Hin Hok. subst run.
    unfold resourceWorkspaceSamlConfigurationDelete in *. fold id timeout in Hin |- *.
    destruct (FindWorkspaceByID conn id) as [workspace [e|]].
    { cbn in Hin. destruct Hin as [Hin|[]]; discriminate. }
    destruct (workspace ≫= Authentication) as [authentication|].
    2:{ cbn in Hin. destruct Hin as [Hin|[]]; discriminate. }
    cbv zeta in Hin |- *.
    match type of Hin with
    | context [UpdateWorkspaceAuthentication conn ?i] => set (sent_input := i) in *
    end.
    destruct (UpdateWorkspaceAuthentication conn sent_input) as [e|] eqn:Hupd.
    { cbn in Hin. destruct Hin as [Hin|[Hin|[]]]; [discriminate|].
      injection Hin as <-. congruence. }
    assert (input = sent_input) as ->.
    { destruct (waitWorkspaceSamlConfigurationDeleted conn id timeout);
        cbn in Hin; destruct Hin as [Hin|[Hin|[Hin|[]]]]; congruence. }
    destruct (waitWorkspaceSamlConfigurationDeleted conn id timeout) as [e|];
      cbn [fst snd]; (split; [reflexivity | intros d' [=]; reflexivity]).
  - intros V T fx conn req resp. unfold lexv2models.Create.
    destruct (HasError _); [now left|].
    destruct (lexv2models.Expand_CreateSlotInput fx _ _) as [ediags input].
    destruct (HasError _); [now left|].
    right. exists input.
    destruct (lexmodelsv2.CreateSlot conn input) as [[out|] [e|]]; try reflexivity.
    destruct (flex.FlattenResourceId _ _ _) as [id [e|]]; [reflexivity|].
    destruct (lexv2models.Flatten_CreateSlotOutput fx out _) as [fdiags flat].
    now destruct (HasError _).
Qed.
End Waiting.

(** C5 on the stored sample resource: the delete waits right after its
    update and sends nothing after the wait. *)
Lemma handlers_wait_after_update_witness :
  fst (grafana.resourceWorkspaceSamlConfigurationDelete
         (sample_grafana.conn sample_grafana.complete) sample_grafana.stored) =
  [grafana.FindWorkspaceByID_call sample_grafana.workspace_id;
   grafana.UpdateWorkspaceAuthentication_call
     {| grafana.AuthenticationProviders := Some ["SAML"];
        grafana.SamlConfiguration_ := None;
        grafana.WorkspaceId := Some sample_grafana.workspace_id |};
   grafana.waitWorkspaceSamlConfigurationDeleted_call sample_grafana.workspace_id
     (10 * time.Minute)%Z] /\
  (forall d',
     snd (grafana.resourceWorkspaceSamlConfigurationDelete
            (sample_grafana.conn sample_grafana.complete) sample_grafana.stored) =
     Ret (None, d') ->
     grafana.waitWorkspaceSamlConfigurationDeleted
       (sample_grafana.conn sample_grafana.complete) sample_grafana.workspace_id
       (10 * time.Minute)%Z = None).
Proof.
  apply (proj1 handlers_wait_after_update
           (sample_grafana.conn sample_grafana.complete) sample_grafana.stored
           {| grafana.AuthenticationProviders := Some ["SAML"];
              grafana.SamlConfiguration_ := None;
              grafana.WorkspaceId := Some sample_grafana.workspace_id |}).
  - vm_compute. right. left. reflexivity.
  - reflexivity.
Defined.

(** C5: the Lex V2 slot Create writes the state having sent CreateSlot
    alone; no request that polls the slot goes out. *)
Lemma Create_slot_does_not_poll :
  snd (lexv2models.Create sample.fx (sample.service "SLOT000001" "BOT0000001")
         {| lexv2models.CreateRequest_Plan := sample.decoded sample.plan |}
         sample.blank_response) =
  [lexmodelsv2.CreateSlot_req
     (lexmodelsv2.CreateSlotInput.mk (Some "BOT0000001") (Some "DRAFT")
        (Some "pick a size") (Some "INTENT0001") (Some "en_US") (Some "size") None)] /\
  fst (lexv2models.Create sample.fx (sample.service "SLOT000001" "BOT0000001")
         {| lexv2models.CreateRequest_Plan := sample.decoded sample.plan |}
         sample.blank_response) =
  {| lexv2models.resp_Diagnostics := [];
     lexv2models.resp_State := Some sample.state |}.
Proof. split; vm_compute; reflexivity. Qed.

(** ** Registered handlers *)

(** C4, as amended.  The Grafana workspace SAML configuration registers a
    handler for each of Create, Read, Update and Delete, and the Lex V2
    slot implements all four as methods of its framework resource; the
    Macie organization admin account registers Create, Read and Delete and
    no Update, every attribute of its schema forcing a new resource. *)
Theorem registered_handlers :
  (forall op, schema.registers grafana.ResourceWorkspaceSamlConfiguration op = true) /\
  (forall (V T : Type) (fx : lexv2models.AutoFlex V T),
     resource.Create (resourceSlot V T fx) = lexv2models.Create fx /\
     resource.Read (resourceSlot V T fx) = lexv2models.Read fx /\
     resource.Update (resourceSlot V T fx) = lexv2models.Update fx /\
     resource.Delete (resourceSlot V T fx) = lexv2models.Delete) /\
  (forall onDeadline op,
     schema.registers (macie2.ResourceOrganizationAdminAccount onDeadline) op =
     match op with
     | schema.OpUpdate => false
     | _ => true
     end) /\
  (forall onDeadline,
     map_Forall (fun _ attribute => schema.ForceNew attribute = true)
       (schema.Schema_ (macie2.ResourceOrganizationAdminAccount onDeadline))).
Proof.
  split; [|split; [|split]].
  - intros []; reflexivity.
  - intros V T fx. repeat split.
  - intros onDeadline []; reflexivity.
  - intros onDeadline. apply map_Forall_singleton. reflexivity.
Qed.

(** C4: the Macie organization admin account registers no Update
    handler, in either slot. *)
Lemma Macie_registers_no_Update :
  schema.Update (macie2.ResourceOrganizationAdminAccount sample_macie.bare_timeout) = None /\
  schema.UpdateWithoutTimeout
    (macie2.ResourceOrganizationAdminAccount sample_macie.bare_timeout) = None /\
  schema.registers (macie2.ResourceOrganizationAdminAccount sample_macie.bare_timeout)
    schema.OpUpdate = false.
Proof. repeat split. Qed.

(** ** Delete of the Macie organization admin account *)

Lemma prefix_app p s : String.prefix p s = true <-> exists b, s = p +:+ b.
Proof.
  revert s. induction p as [|c p IH]; intros [|c' s]; simpl.
  - split; [intros _; now exists "" | reflexivity].
  - split; [intros _; now exists (String c' s) | reflexivity].
  - split; [discriminate | intros [b [=]]].
  - destruct (ascii_dec c c') as [->|Hne].
    + rewrite IH. split; intros [b Hb]; exists b; [now subst | now injection Hb].
    + split; [discriminate | intros [b [= ? _]]; congruence].
Qed.

(** [strings.Contains] finds exactly the substrings. *)
Lemma Contains_substring s sub :
  strings.Contains s sub = true <-> exists a b, s = a +:+ sub +:+ b.
Proof.
  split.
  - induction s as [|c s IH]; cbn [strings.Contains]; rewrite orb_true_iff;
      intros [Hp|Hc].
    + apply prefix_app in Hp as [b ->]. now exists "", b.
    + discriminate.
    + apply prefix_app in Hp as [b Hb]. now exists "", b.
    + destruct (IH Hc) as (a & b & ->). now exists (String c a), b.
  - intros (a & b & ->). induction a as [|c a IH].
    + assert (Hp : String.prefix sub (sub +:+ b) = true) by (apply prefix_app; eauto).
      change ("" +:+ sub +:+ b) with (sub +:+ b).
      destruct (sub +:+ b); cbn [strings.Contains]; rewrite Hp; reflexivity.
    + change (String c a +:+ sub +:+ b) with (String c (a +:+ sub +:+ b)).
      cbn [strings.Contains]. rewrite IH. apply orb_true_r.
Qed.

Section MacieDelete.
Import macie2.

(** C8.  Delete sends one DisableOrganizationAdminAccount for the stored
    ID and returns.  When the call succeeds, fails with a
    ResourceNotFoundException, or fails with an AccessDeniedException whose
    message contains "Macie is not enabled", it returns no diagnostics at
    all; on every other error it returns an error diagnostic that reports
    this error. *)
Theorem Delete_tolerates_absence (meta : AWSClient) (d : schema.ResourceData) (w : World) :
  let err := DisableOrganizationAdminAccount_answer (Macie2Client meta) in
  let absent :=
    errs.IsA_ResourceNotFoundException err ||
    tfawserr.ErrMessageContains err ErrCodeAccessDeniedException "Macie is not enabled" in
  (exists diags,
     resourceOrganizationAdminAccountDelete meta d w =
     Some (diags, d,
           send (DisableOrganizationAdminAccount_req
                   {| Disable_AdminAccountId := Some (schema.Id d) |}) w) /\
     (err = None \/ absent = true -> diags = []) /\
     (err <> None -> absent = false ->
      HasError diags = true /\ Forall (fun dg => cause dg = err) diags)) /\
  (forall m, err = Some (ResourceNotFoundException m) -> absent = true) /\
  (forall m, err = Some (APIError "AccessDeniedException" m) ->
             absent = true <-> exists a b, m = a +:+ "Macie is not enabled" +:+ b).
Proof.
  intros err absent. split; [|split].
  - unfold resourceOrganizationAdminAccountDelete, DisableOrganizationAdminAccount.
    fold err. destruct err as [e|] eqn:He.
    + fold absent. destruct absent eqn:Habsent.
      * eexists. split; [reflexivity|]. split; [reflexivity | discriminate].
      * eexists. split; [reflexivity|]. split.
        -- intros [|]; discriminate.
        -- intros _ _. split; [reflexivity | repeat constructor].
    + eexists. split; [reflexivity|]. split; [reflexivity | congruence].
  - intros m Hm. subst absent. rewrite Hm. reflexivity.
  - intros m Hm. subst absent. rewrite Hm.
    cbn [errs.IsA_ResourceNotFoundException errs.IsA_ResourceNotFoundException_Err orb
         tfawserr.ErrMessageContains tfawserr.ErrorCode tfawserr.ErrorMessage].
    change (String.eqb "AccessDeniedException" ErrCodeAccessDeniedException) with true.
    cbn [andb]. apply Contains_substring.
Qed.
End MacieDelete.

(** ** The retry loop of the Macie organization admin account Create *)

Lemma MinTimeout_pos : (0 < retry.MinTimeout)%Z.
Proof. reflexivity. Qed.


(** No pause but the first is shorter than [MinTimeout]. *)
Lemma backoff_min (wait : Z) : (retry.MinTimeout <= retry.backoff wait)%Z.
Proof.
  unfold retry.backoff. cbv zeta.
  destruct (Z.ltb_spec (2 * wait) retry.MinTimeout); [lia|].
  destruct (Z.ltb_spec (10 * time.Second) (2 * wait)); [|assumption].
  unfold retry.MinTimeout, time.Second, time.Millisecond, time.Nanosecond. lia.
Qed.


Section MacieRetry.
Import macie2.
Variable onDeadline : error -> error.
Variable conn : Client.
Variable input : EnableOrganizationAdminAccountInput.

Local Abbreviation answer_at n := (answer (EnableOrganizationAdminAccount_answers conn n)).
Local Abbreviation latency_at n :=
  (Z.of_N (latency (EnableOrganizationAdminAccount_answers conn n))).
Local Abbreviation retryable err := (tfawserr.ErrCodeEquals err ErrorCodeClientError).
Local Abbreviation stamped times :=
  (map (fun t : Z => (t, EnableOrganizationAdminAccount_req input)) times).
Local Abbreviation grace := retry.refreshGracePeriod.
Local Abbreviation enabled w := (snd (EnableOrganizationAdminAccount conn input w)).


(** How the function handed to RetryContext classifies the outcome of its
    call: retryable exactly on the error code ClientError, not retryable
    on any other error, and no error on success. *)
Lemma enableOnce_classifies (w : World) :
  fst (enableOnce conn input w) =
  let err := answer_at (calls w) in
  if retryable err then retry.RetryableError err
  else match err with
       | Some _ => retry.NonRetryableError err
       | None => None
       end.
Proof.
  unfold enableOnce, EnableOrganizationAdminAccount. cbv zeta.
  destruct (retryable _); [reflexivity|]. now destruct (answer_at _).
Qed.

Lemma enableOnce_world (w : World) :
  snd (enableOnce conn input w) = enabled w.
Proof.
  unfold enableOnce, EnableOrganizationAdminAccount. cbv zeta.
  destruct (retryable _); [reflexivity|]. now destruct (answer_at _).
Qed.

(** One poll of the loop. *)
Lemma poll_step (fuel : nat) (deadline : Z) (last : error) (wait : Z) (w : World) :
  retry.poll Request onDeadline (S fuel) deadline (enableOnce conn input) last wait w =
  if (deadline <=? now w + wait)%Z
  then Some (onDeadline last, at_time (Z.max deadline (now w)) w)
  else if (deadline + grace <? now (enabled (elapse wait w)))%Z
  then Some (onDeadline last, at_time (deadline + grace) (enabled (elapse wait w)))
  else if retryable (answer_at (calls w))
  then retry.poll Request onDeadline fuel deadline (enableOnce conn input)
         (answer_at (calls w)) (retry.backoff wait) (enabled (elapse wait w))
  else Some (answer_at (calls w), enabled (elapse wait w)).
Proof.
  cbn [retry.poll]. destruct (deadline <=? now w + wait)%Z; [reflexivity|].
  pose proof (enableOnce_classifies (elapse wait w)) as Hclass.
  pose proof (enableOnce_world (elapse wait w)) as Hworld.
  destruct (enableOnce conn input (elapse wait w)) as [rerr w1].
  cbn [fst snd] in Hclass, Hworld. cbv zeta in Hclass. cbn [elapse calls] in Hclass.
  subst w1. destruct (_ <? _)%Z; [reflexivity|].
  destruct (retryable (answer_at (calls w))); subst rerr; [reflexivity|].
  destruct (answer_at (calls w)); reflexivity.
Qed.

(** The world after the call of a poll. *)
Lemma enabled_elapse (wait : Z) (w : World) :
  now (enabled (elapse wait w)) = (now w + wait + latency_at (calls w))%Z /\
  calls (enabled (elapse wait w)) = S (calls w) /\
  sent (enabled (elapse wait w)) =
    sent w ++ [((now w + wait)%Z, EnableOrganizationAdminAccount_req input)].
Proof. cbn. repeat split. Qed.

(** The loop returns once its polls cover the time left to the deadline. *)
Lemma poll_returns (k : nat) (deadline : Z) :
  forall (last : error) (wait : Z) (w : World),
    (0 <= wait)%Z ->
    (deadline - (now w + wait) <= Z.of_nat k * retry.MinTimeout)%Z ->
    exists r,
      retry.poll Request onDeadline (S k) deadline (enableOnce conn input) last wait w = Some r.
Proof.
  induction k as [|k IH]; intros last wait w Hwait Hleft; rewrite poll_step.
  - destruct (Z.leb_spec deadline (now w + wait)); [eauto | lia].
  - destruct (Z.leb_spec deadline (now w + wait)); [eauto|].
    destruct (_ <? _)%Z; [eauto|].
    destruct (retryable _); [|eauto].
    pose proof (backoff_min wait). pose proof MinTimeout_pos.
    destruct (enabled_elapse wait w) as (Hnow & _).
    apply IH; [lia|]. rewrite Hnow. lia.
Qed.




End MacieRetry.

Section MacieCreate.
Import macie2.

Local Abbreviation retryable err := (tfawserr.ErrCodeEquals err ErrorCodeClientError).

Lemma polls_four_minutes : retry.polls (4 * time.Minute) = S 481.
Proof. reflexivity. Qed.

(** Four minutes are covered by the polls RetryContext allows itself. *)
Lemma RetryContext_finishes (onDeadline : error -> error) (conn : Client)
    (input : EnableOrganizationAdminAccountInput) (w : World) :
  exists err w',
    retry.RetryContext Request onDeadline (4 * time.Minute) (enableOnce conn input) w =
    Some (err, w').
Proof.
  unfold retry.RetryContext. rewrite polls_four_minutes.
  destruct (poll_returns onDeadline conn input 481 (now w + 4 * time.Minute) None 0 w)
    as [[err w'] Hpoll]; [lia | | eauto].
  change (Z.of_nat 481 * retry.MinTimeout)%Z with 240500000000%Z.
  change (4 * time.Minute)%Z with 240000000000%Z. lia.
Qed.


(** Pages are fetched the same way whatever the world is. *)
Lemma eachPage_sends {St} pages err
    (fn : option ListOrganizationAdminAccountsOutput -> bool -> St -> bool * St) :
  forall s, exists s' err' k, forall w : World,
    eachPage pages err fn s w =
    ((s', err'), Nat.iter k (send ListOrganizationAdminAccounts_req) w).
Proof.
  induction pages as [|page rest IH]; intros s.
  - cbn [eachPage]. destruct err as [e|].
    + exists s, (Some e), 1. reflexivity.
    + exists s, None, 0. reflexivity.
  - cbn [eachPage].
    destruct (fn page match rest, err with [], None => true | _, _ => false end s)
      as [more s1].
    destruct more.
    + destruct (IH s1) as (s' & err' & k & Hk). exists s', err', (S k). intros w.
      rewrite Hk. f_equal. apply Nat.iter_swap.
    + exists s1, None, 1. reflexivity.
Qed.

Lemma ListOrganizationAdminAccountsPages_sends {St} conn
    (fn : option ListOrganizationAdminAccountsOutput -> bool -> St -> bool * St) :
  forall s, exists s' err' k, forall w : World,
    ListOrganizationAdminAccountsPages conn fn s w =
    ((s', err'), Nat.iter k (send ListOrganizationAdminAccounts_req) w).
Proof.
  intros s. unfold ListOrganizationAdminAccountsPages.
  destruct (ListOrganizationAdminAccounts_pages conn) as [|page rest];
    [destruct (ListOrganizationAdminAccounts_err conn)|]; apply eachPage_sends.
Qed.

(** Read reports and stores the same whatever the world is, and sends
    ListOrganizationAdminAccounts only. *)
Lemma Read_sends (meta : AWSClient) (d : schema.ResourceData) :
  exists diags d' k, forall w : World,
    resourceOrganizationAdminAccountRead meta d w =
    Some (diags, d', Nat.iter k (send ListOrganizationAdminAccounts_req) w).
Proof.
  unfold resourceOrganizationAdminAccountRead, GetOrganizationAdminAccount.
  match goal with
  | |- context [ListOrganizationAdminAccountsPages ?conn ?fn ?s _] =>
      destruct (ListOrganizationAdminAccountsPages_sends conn fn s) as (res & err' & k & Hk)
  end.
  destruct (negb (schema.IsNewResource d) &&
            (errs.IsA_ResourceNotFoundException err' ||
             tfawserr.ErrMessageContains err' ErrCodeAccessDeniedException
               "Macie is not enabled")) eqn:Hgone.
  { do 3 eexists. intros w. rewrite Hk, Hgone. reflexivity. }
  destruct err' as [e|].
  { do 3 eexists. intros w. rewrite Hk, Hgone. reflexivity. }
  destruct res as [res|].
  { do 3 eexists. intros w. rewrite Hk, Hgone. reflexivity. }
  destruct (negb (schema.IsNewResource d)) eqn:Hnew;
    do 3 eexists; intros w; rewrite Hk, Hgone; reflexivity.
Qed.




End MacieCreate.

(** ** Two runs of the Macie organization admin account Create *)

Section MacieTwoRuns.
Import macie2.
Variable onDeadline : error -> error.
Variable f : Request -> Request.

Lemma alike_send r r' (w w' : World) :
  f r = f r' -> alike f w w' -> alike f (send r w) (send r' w').
Proof.
  intros Hr (Hnow & Hcalls & Hsent). unfold alike, seen in *. cbn [send now calls sent].
  rewrite !map_app, Hsent, Hnow, Hcalls. cbn [map fst snd]. now rewrite Hr.
Qed.

Lemma alike_elapse t (w w' : World) :
  alike f w w' -> alike f (elapse t w) (elapse t w').
Proof.
  intros (Hnow & Hcalls & Hsent). unfold alike. cbn [elapse now calls sent].
  now rewrite Hnow.
Qed.

Lemma alike_at_time t (w w' : World) :
  alike f w w' -> alike f (at_time t w) (at_time t w').
Proof. intros (Hnow & Hcalls & Hsent). now unfold alike. Qed.

Lemma alike_listing k (w w' : World) :
  alike f w w' ->
  alike f (Nat.iter k (send ListOrganizationAdminAccounts_req) w)
          (Nat.iter k (send ListOrganizationAdminAccounts_req) w').
Proof.
  intros H. induction k as [|k IH]; [exact H|].
  rewrite !Nat.iter_succ. now apply alike_send.
Qed.

Lemma EnableOrganizationAdminAccount_alike conn input input' (w w' : World) :
  f (EnableOrganizationAdminAccount_req input) = f (EnableOrganizationAdminAccount_req input') ->
  alike f w w' ->
  fst (EnableOrganizationAdminAccount conn input w) =
  fst (EnableOrganizationAdminAccount conn input' w') /\
  alike f (snd (EnableOrganizationAdminAccount conn input w))
          (snd (EnableOrganizationAdminAccount conn input' w')).
Proof.
  intros Hinput Hw. pose proof Hw as (_ & Hcalls & _).
  unfold EnableOrganizationAdminAccount. cbn [fst snd]. rewrite Hcalls.
  split; [reflexivity|]. now apply alike_elapse, alike_send.
Qed.

Lemma enableOnce_alike conn input input' (w w' : World) :
  f (EnableOrganizationAdminAccount_req input) = f (EnableOrganizationAdminAccount_req input') ->
  alike f w w' ->
  fst (enableOnce conn input w) = fst (enableOnce conn input' w') /\
  alike f (snd (enableOnce conn input w)) (snd (enableOnce conn input' w')).
Proof.
  intros Hinput Hw.
  destruct (EnableOrganizationAdminAccount_alike conn input input' w w' Hinput Hw)
    as [Herr Hworld].
  rewrite !enableOnce_world, !enableOnce_classifies.
  split; [|exact Hworld]. pose proof Hw as (_ & Hcalls & _). now rewrite Hcalls.
Qed.

(** The loop does the same in two worlds that are alike. *)
Lemma poll_alike conn input input' (fuel : nat) (deadline : Z) :
  f (EnableOrganizationAdminAccount_req input) = f (EnableOrganizationAdminAccount_req input') ->
  forall last wait (w w' : World),
    alike f w w' ->
    match retry.poll Request onDeadline fuel deadline (enableOnce conn input) last wait w,
          retry.poll Request onDeadline fuel deadline (enableOnce conn input') last wait w' with
    | Some (err, w1), Some (err', w1') => err = err' /\ alike f w1 w1'
    | None, None => True
    | _, _ => False
    end.
Proof.
  intros Hinput. induction fuel as [|fuel IH]; intros last wait w w' Hw; [exact I|].
  cbn [retry.poll]. pose proof Hw as (Hnow & _). rewrite <- Hnow.
  destruct (deadline <=? now w + wait)%Z; [split; [reflexivity | now apply alike_at_time]|].
  destruct (enableOnce_alike conn input input' (elapse wait w) (elapse wait w') Hinput
              (alike_elapse wait w w' Hw)) as [Hres Hworld].
  destruct (enableOnce conn input (elapse wait w)) as [rerr w1],
           (enableOnce conn input' (elapse wait w')) as [rerr' w1'].
  cbn [fst snd] in Hres, Hworld. subst rerr'.
  pose proof Hworld as (Hnow1 & _). rewrite <- Hnow1.
  destruct (_ <? _)%Z; [split; [reflexivity | now apply alike_at_time]|].
  destruct rerr as [rerr|]; [|now split].
  destruct (retry.Retryable rerr); [|now split].
  now apply IH.
Qed.

(** Create does the same in two worlds that are alike, whatever its
    generators hand out, as long as [f] does not see the difference. *)
Lemma Create_alike (meta : AWSClient) (d : schema.ResourceData) (w w' : World) :
  (forall a, f (EnableOrganizationAdminAccount_req
                  {| AdminAccountId := a; ClientToken := Some (fst (UniqueId w)) |}) =
             f (EnableOrganizationAdminAccount_req
                  {| AdminAccountId := a; ClientToken := Some (fst (UniqueId w')) |})) ->
  alike f w w' ->
  match resourceOrganizationAdminAccountCreate onDeadline meta d w,
        resourceOrganizationAdminAccountCreate onDeadline meta d w' with
  | Some (diags, d1, w1), Some (diags', d1', w1') =>
      diags = diags' /\ d1 = d1' /\ alike f w1 w1'
  | _, _ => False
  end.
Proof.
  intros Hf Hw. unfold resourceOrganizationAdminAccountCreate, retry.RetryContext.
  unfold UniqueId in *. cbn [fst snd] in Hf. cbv iota beta. unfold aws.String.
  set (input := {| AdminAccountId := _; ClientToken := Some (unique_ids w _) |}).
  set (input' := {| AdminAccountId := _; ClientToken := Some (unique_ids w' _) |}).
  specialize (Hf (Some (schema.GetString d "admin_account_id"))). fold input input' in Hf.
  match goal with
  | |- context [retry.poll _ _ _ _ (enableOnce _ input) _ _ ?w0] => set (w0_ := w0)
  end.
  match goal with
  | |- context [retry.poll _ _ _ _ (enableOnce _ input') _ _ ?w0] => set (w0'_ := w0)
  end.
  assert (Hw0 : alike f w0_ w0'_) by exact Hw.
  assert (Hdl : now w0_ = now w0'_) by apply Hw.
  rewrite <- Hdl.
  pose proof (poll_alike (Macie2Client meta) input input' (retry.polls (4 * time.Minute))
                (now w0_ + 4 * time.Minute) Hf None 0%Z w0_ w0'_ Hw0) as Hpoll.
  destruct (poll_returns onDeadline (Macie2Client meta) input 481
              (now w0_ + 4 * time.Minute) None 0 w0_) as [[err w1] Hsome]; [lia| |].
  { change (Z.of_nat 481 * retry.MinTimeout)%Z with 240500000000%Z.
    change (4 * time.Minute)%Z with 240000000000%Z. lia. }
  rewrite polls_four_minutes in Hpoll |- *. rewrite Hsome in Hpoll |- *.
  destruct (retry.poll _ _ _ _ (enableOnce _ input') _ _ _) as [[err' w1']|]; [|contradiction].
  destruct Hpoll as [<- Hw1].
  assert (Hfinal :
            let r := if tfresource.TimedOut err
                     then EnableOrganizationAdminAccount (Macie2Client meta) input w1
                     else (err, w1) in
            let r' := if tfresource.TimedOut err
                      then EnableOrganizationAdminAccount (Macie2Client meta) input' w1'
                      else (err, w1') in
            fst r = fst r' /\ alike f (snd r) (snd r')).
  { destruct (tfresource.TimedOut err); [|now split].
    now apply EnableOrganizationAdminAccount_alike. }
  cbv zeta in Hfinal.
  destruct (if tfresource.TimedOut err
            then EnableOrganizationAdminAccount (Macie2Client meta) input w1
            else (err, w1)) as [final w2].
  destruct (if tfresource.TimedOut err
            then EnableOrganizationAdminAccount (Macie2Client meta) input' w1'
            else (err, w1')) as [final' w2'].
  cbn [fst snd] in Hfinal. destruct Hfinal as [<- Hw2].
  destruct final as [e|]; [split; [reflexivity | split; [reflexivity | exact Hw2]]|].
  destruct (Read_sends meta (schema.SetId d (schema.GetString d "admin_account_id")))
    as (rd & d' & k & Hread).
  rewrite !Hread. split; [reflexivity | split; [reflexivity | now apply alike_listing]].
Qed.
End MacieTwoRuns.

Lemma seen_forget_nothing requests : macie2.seen (fun r => r) requests = requests.
Proof.
  unfold macie2.seen. induction requests as [|[t r] requests IH]; cbn; [reflexivity|].
  now rewrite IH.
Qed.

(** C6, as amended.  Two runs of Create from the same resource data,
    against the same service answers, at the same clock and with the same
    requests sent before, return the same diagnostics and the same resource
    data and send the same requests at the same times up to the client
    token, which each run draws from its own generator; when both
    generators hand out the same token the requests are the same outright. *)
Theorem Create_runs_agree_up_to_ClientToken
    (onDeadline : error -> error) (meta : macie2.AWSClient) (d : schema.ResourceData)
    (w w' : macie2.World) :
  now w = now w' -> calls w = calls w' -> sent w = sent w' ->
  match macie2.resourceOrganizationAdminAccountCreate onDeadline meta d w,
        macie2.resourceOrganizationAdminAccountCreate onDeadline meta d w' with
  | Some (diags, d1, w1), Some (diags', d1', w1') =>
      diags = diags' /\ d1 = d1' /\ now w1 = now w1' /\
      macie2.seen macie2.forget_token (sent w1) = macie2.seen macie2.forget_token (sent w1') /\
      (fst (UniqueId w) = fst (UniqueId w') -> sent w1 = sent w1')
  | _, _ => False
  end.
Proof.
  intros Hnow Hcalls Hsent.
  pose proof (Create_alike onDeadline macie2.forget_token meta d w w'
                ltac:(reflexivity)
                ltac:(unfold macie2.alike; now rewrite Hnow, Hcalls, Hsent)) as Hforget.
  destruct (macie2.resourceOrganizationAdminAccountCreate onDeadline meta d w)
    as [[[diags d1] w1]|] eqn:Hrun; [|contradiction].
  destruct (macie2.resourceOrganizationAdminAccountCreate onDeadline meta d w')
    as [[[diags' d1'] w1']|] eqn:Hrun'; [|contradiction].
  destruct Hforget as (Hdiags & Hd & Hclock & _ & Hseen).
  repeat split; try assumption.
  intros Htoken.
  pose proof (Create_alike onDeadline (fun r => r) meta d w w'
                ltac:(intros a; now rewrite Htoken)
                ltac:(unfold macie2.alike; now rewrite Hnow, Hcalls, Hsent)) as Hsame.
  rewrite Hrun, Hrun' in Hsame. destruct Hsame as (_ & _ & _ & _ & Hsame).
  now rewrite !seen_forget_nothing in Hsame.
Qed.

(** C6 on two runs whose generators hand out different tokens. *)
Lemma Create_runs_agree_up_to_ClientToken_witness :
  match macie2.resourceOrganizationAdminAccountCreate sample_macie.bare_timeout
          sample_macie.slow_then_fine sample_macie.d
          (sample_macie.world "terraform-20261030120000000000000001"),
        macie2.resourceOrganizationAdminAccountCreate sample_macie.bare_timeout
          sample_macie.slow_then_fine sample_macie.d
          (sample_macie.world "terraform-20261030120500000000000002") with
  | Some (diags, d1, w1), Some (diags', d1', w1') =>
      diags = diags' /\ d1 = d1' /\ now w1 = now w1' /\
      macie2.seen macie2.forget_token (sent w1) = macie2.seen macie2.forget_token (sent w1') /\
      (fst (UniqueId (sample_macie.world "terraform-20261030120000000000000001")) =
       fst (UniqueId (sample_macie.world "terraform-20261030120500000000000002")) ->
       sent w1 = sent w1')
  | _, _ => False
  end.
Proof.
  exact (Create_runs_agree_up_to_ClientToken sample_macie.bare_timeout
           sample_macie.slow_then_fine sample_macie.d
           (sample_macie.world "terraform-20261030120000000000000001")
           (sample_macie.world "terraform-20261030120500000000000002")
           eq_refl eq_refl eq_refl).
Defined.

(** C6: two runs of Create from the same resource data against the same
    service answers send different requests, for each draws a client token
    of its own. *)
Lemma Create_runs_differ_in_ClientToken :
  (sent ∘ snd <$>
   macie2.resourceOrganizationAdminAccountCreate sample_macie.bare_timeout
     (sample_macie.always None) sample_macie.d
     (sample_macie.world "terraform-20261030120000000000000001")) =
  Some [(0%Z, macie2.EnableOrganizationAdminAccount_req
                {| macie2.AdminAccountId := Some sample_macie.account;
                   macie2.ClientToken := Some "terraform-20261030120000000000000001" |});
        (0%Z, macie2.ListOrganizationAdminAccounts_req)] /\
  (sent ∘ snd <$>
   macie2.resourceOrganizationAdminAccountCreate sample_macie.bare_timeout
     (sample_macie.always None) sample_macie.d
     (sample_macie.world "terraform-20261030120500000000000002")) =
  Some [(0%Z, macie2.EnableOrganizationAdminAccount_req
                {| macie2.AdminAccountId := Some sample_macie.account;
                   macie2.ClientToken := Some "terraform-20261030120500000000000002" |});
        (0%Z, macie2.ListOrganizationAdminAccounts_req)] /\
  (sent ∘ snd <$>
   macie2.resourceOrganizationAdminAccountCreate sample_macie.bare_timeout
     (sample_macie.always None) sample_macie.d
     (sample_macie.world "terraform-20261030120000000000000001")) <>
  (sent ∘ snd <$>
   macie2.resourceOrganizationAdminAccountCreate sample_macie.bare_timeout
     (sample_macie.always None) sample_macie.d
     (sample_macie.world "terraform-20261030120500000000000002")).
Proof.
  assert (H1 : (sent ∘ snd <$>
                macie2.resourceOrganizationAdminAccountCreate sample_macie.bare_timeout
                  (sample_macie.always None) sample_macie.d
                  (sample_macie.world "terraform-20261030120000000000000001")) =
               Some [(0%Z, macie2.EnableOrganizationAdminAccount_req
                             {| macie2.AdminAccountId := Some sample_macie.account;
                                macie2.ClientToken := Some "terraform-20261030120000000000000001" |});
                     (0%Z, macie2.ListOrganizationAdminAccounts_req)])
    by (vm_compute; reflexivity).
  assert (H2 : (sent ∘ snd <$>
                macie2.resourceOrganizationAdminAccountCreate sample_macie.bare_timeout
                  (sample_macie.always None) sample_macie.d
                  (sample_macie.world "terraform-20261030120500000000000002")) =
               Some [(0%Z, macie2.EnableOrganizationAdminAccount_req
                             {| macie2.AdminAccountId := Some sample_macie.account;
                                macie2.ClientToken := Some "terraform-20261030120500000000000002" |});
                     (0%Z, macie2.ListOrganizationAdminAccounts_req)])
    by (vm_compute; reflexivity).
  split; [exact H1|]. split; [exact H2|]. rewrite H1, H2. discriminate.
Qed.

(** ** Sample runs of the retry *)



(** When the first call has not come back thirty seconds after the four
    minutes, the retry comes back timed out and Create makes one further
    call, which here succeeds: Create sets the ID and reads the resource. *)
Lemma Create_makes_one_further_call_after_a_timeout :
  exists d' wf,
    macie2.resourceOrganizationAdminAccountCreate retry.atDeadline
      sample_macie.hangs_then_fine sample_macie.d
      (sample_macie.world "terraform-20261030120000000000000001") =
    Some ([], d', wf) /\
    schema.Id d' = sample_macie.account /\
    sent wf =
      [(0%Z, macie2.EnableOrganizationAdminAccount_req
               {| macie2.AdminAccountId := Some sample_macie.account;
                  macie2.ClientToken := Some "terraform-20261030120000000000000001" |});
       (270000000000%Z, macie2.EnableOrganizationAdminAccount_req
               {| macie2.AdminAccountId := Some sample_macie.account;
                  macie2.ClientToken := Some "terraform-20261030120000000000000001" |});
       (270000000000%Z, macie2.ListOrganizationAdminAccounts_req)].
Proof.
  do 2 eexists. split; [vm_compute; reflexivity|]. split; reflexivity.
Qed.

(** A service that answers ClientError at once, four minutes on end:
    Create makes the 28 calls of the retry and no further one. *)
Lemma Create_against_lasting_ClientError :
  (length ∘ macie2.enable_inputs ∘ sent ∘ snd <$>
   macie2.resourceOrganizationAdminAccountCreate retry.atDeadline
     (sample_macie.always (Some (APIError macie2.ErrorCodeClientError "not ready")))
     sample_macie.d (sample_macie.world "terraform-20261030120000000000000001")) =
  Some 28.
Proof. vm_compute; reflexivity. Qed.

(** * Further properties of the handlers *)

(** ** Looking up the Macie organization admin account *)

Section MacieLookup.
Import macie2.

Lemma rangeAdminAccounts_app id l1 l2 :
  rangeAdminAccounts id (l1 ++ l2) =
  match rangeAdminAccounts id l1 with
  | Some a => Some a
  | None => rangeAdminAccounts id l2
  end.
Proof.
  induction l1 as [|[a|] l1 IH]; cbn [app rangeAdminAccounts]; [reflexivity | | exact IH].
  destruct (String.eqb _ _); [reflexivity | exact IH].
Qed.

Lemma rangeAdminAccounts_Some id accounts a :
  rangeAdminAccounts id accounts = Some a ->
  In (Some a) accounts /\ aws.ToString (AccountId a) = id.
Proof.
  induction accounts as [|[b|] accounts IH]; cbn [rangeAdminAccounts]; [discriminate | |].
  - destruct (String.eqb_spec (aws.ToString (AccountId b)) id) as [Heq|Hne].
    + intros [= ->]. split; [now left | exact Heq].
    + intros H. destruct (IH H). split; [now right | assumption].
  - intros H. destruct (IH H). split; [now right | assumption].
Qed.

Lemma rangeAdminAccounts_None id accounts :
  rangeAdminAccounts id accounts = None ->
  forall a, In (Some a) accounts -> aws.ToString (AccountId a) <> id.
Proof.
  induction accounts as [|[b|] accounts IH]; cbn [rangeAdminAccounts]; [intros _ ? [] | |].
  - destruct (String.eqb_spec (aws.ToString (AccountId b)) id) as [Heq|Hne]; [discriminate|].
    intros H a [[= <-]|Hin]; [assumption | now apply IH].
  - intros H a [[=]|Hin]. now apply IH.
Qed.

(** The pager with the callback of GetOrganizationAdminAccount finds the
    first match over the pages put end to end, and then reports no error;
    without a match it reports the error of the listing. *)
Lemma eachPage_first_match id pages err :
  forall (res : option AdminAccount) (w : World),
    fst (eachPage pages err
           (fun page lastPage res =>
              match page with
              | None => (negb lastPage, res)
              | Some page =>
                  match rangeAdminAccounts id (AdminAccounts page) with
                  | Some adminAccount => (false, Some adminAccount)
                  | None => (negb lastPage, res)
                  end
              end) res w) =
    match rangeAdminAccounts id (allAdminAccounts pages) with
    | Some a => (Some a, None)
    | None => (res, err)
    end.
Proof.
  unfold allAdminAccounts.
  induction pages as [|page rest IH]; intros res w.
  - cbn. now destruct err.
  - cbn [eachPage map concat]. rewrite rangeAdminAccounts_app.
    destruct page as [page|].
    + destruct (rangeAdminAccounts id (AdminAccounts page)) as [a|]; [reflexivity|].
      destruct rest as [|next rest]; [|cbn [negb]; apply IH].
      destruct err as [e|]; reflexivity.
    + cbn [rangeAdminAccounts].
      destruct rest as [|next rest]; [|cbn [negb]; apply IH].
      destruct err as [e|]; reflexivity.
Qed.

(** Without a match the pager asks for every page, and once more when
    the listing fails after them. *)
Lemma eachPage_exhausts id pages err :
  forall (res : option AdminAccount) (w : World),
    rangeAdminAccounts id (allAdminAccounts pages) = None ->
    calls (snd (eachPage pages err
                  (fun page lastPage res =>
                     match page with
                     | None => (negb lastPage, res)
                     | Some page =>
                         match rangeAdminAccounts id (AdminAccounts page) with
                         | Some adminAccount => (false, Some adminAccount)
                         | None => (negb lastPage, res)
                         end
                     end) res w)) =
    calls w + length pages + match err with Some _ => 1 | None => 0 end.
Proof.
  unfold allAdminAccounts.
  induction pages as [|page rest IH]; intros res w Hnone.
  - cbn. destruct err; cbn; lia.
  - cbn [map concat] in Hnone. rewrite rangeAdminAccounts_app in Hnone.
    cbn [eachPage length].
    assert (Hrest : rangeAdminAccounts id
                      (concat (map (fun page =>
                                      match page with
                                      | Some page => AdminAccounts page
                                      | None => []
                                      end) rest)) = None).
    { destruct page as [page|]; [|exact Hnone].
      now destruct (rangeAdminAccounts id (AdminAccounts page)). }
    assert (Hstep : forall lastPage,
               match page with
               | None => (negb lastPage, res)
               | Some page =>
                   match rangeAdminAccounts id (AdminAccounts page) with
                   | Some adminAccount => (false, Some adminAccount)
                   | None => (negb lastPage, res)
                   end
               end = (negb lastPage, res)).
    { intros lastPage. destruct page as [page|]; [|reflexivity].
      destruct (rangeAdminAccounts id (AdminAccounts page)); [discriminate | reflexivity]. }
    rewrite Hstep.
    destruct rest as [|next rest].
    + destruct err as [e|]; cbn; lia.
    + cbn [negb]. rewrite (IH res _ Hrest). cbn [send calls length]. lia.
Qed.

(** With a match the pager asks for the pages up to the match and for
    no more. *)
Lemma eachPage_stops id pages err a :
  forall (res : option AdminAccount) (w : World),
    rangeAdminAccounts id (allAdminAccounts pages) = Some a ->
    calls w <
    calls (snd (eachPage pages err
                  (fun page lastPage res =>
                     match page with
                     | None => (negb lastPage, res)
                     | Some page =>
                         match rangeAdminAccounts id (AdminAccounts page) with
                         | Some adminAccount => (false, Some adminAccount)
                         | None => (negb lastPage, res)
                         end
                     end) res w)) <= calls w + length pages.
Proof.
  unfold allAdminAccounts.
  induction pages as [|page rest IH]; intros res w Hsome; [discriminate|].
  cbn [map concat] in Hsome. rewrite rangeAdminAccounts_app in Hsome.
  cbn [eachPage length].
  destruct page as [page|].
  - destruct (rangeAdminAccounts id (AdminAccounts page)) as [b|].
    + cbn. lia.
    + destruct rest as [|next rest]; [discriminate|]. cbn [negb].
      specialize (IH res (send ListOrganizationAdminAccounts_req w) Hsome).
      cbn [send calls length] in IH |- *. lia.
  - cbn [rangeAdminAccounts] in Hsome.
    destruct rest as [|next rest]; [discriminate|]. cbn [negb].
    specialize (IH res (send ListOrganizationAdminAccounts_req w) Hsome).
    cbn [send calls length] in IH |- *. lia.
Qed.

Lemma GetOrganizationAdminAccount_lookup (conn : Client) (id : string) (w : World) :
  fst (GetOrganizationAdminAccount conn id w) =
  match rangeAdminAccounts id (allAdminAccounts (ListOrganizationAdminAccounts_pages conn)) with
  | Some a => (Some a, None)
  | None => (None, ListOrganizationAdminAccounts_err conn)
  end.
Proof.
  unfold GetOrganizationAdminAccount, ListOrganizationAdminAccountsPages.
  destruct (ListOrganizationAdminAccounts_pages conn) as [|page rest];
    [destruct (ListOrganizationAdminAccounts_err conn)|];
    try apply eachPage_first_match.
  reflexivity.
Qed.

(** The requests GetOrganizationAdminAccount sends. *)
Lemma GetOrganizationAdminAccount_calls (conn : Client) (id : string) (w : World) :
  let pages := ListOrganizationAdminAccounts_pages conn in
  let err := ListOrganizationAdminAccounts_err conn in
  match rangeAdminAccounts id (allAdminAccounts pages) with
  | Some _ =>
      calls w < calls (snd (GetOrganizationAdminAccount conn id w)) <= calls w + length pages
  | None =>
      calls (snd (GetOrganizationAdminAccount conn id w)) =
      calls w + Nat.max 1 (length pages + match err with Some _ => 1 | None => 0 end)
  end.
Proof.
  intros pages err. subst pages err.
  unfold GetOrganizationAdminAccount, ListOrganizationAdminAccountsPages.
  destruct (ListOrganizationAdminAccounts_pages conn) as [|page rest] eqn:Hpages.
  - destruct (ListOrganizationAdminAccounts_err conn) as [e|]; cbn; lia.
  - destruct (rangeAdminAccounts id (allAdminAccounts (page :: rest))) as [a|] eqn:Hres.
    + apply (eachPage_stops id (page :: rest) _ a None w Hres).
    + rewrite (eachPage_exhausts id (page :: rest) _ None w Hres).
      cbn [length]. destruct (ListOrganizationAdminAccounts_err conn); lia.
Qed.

(** X1.  GetOrganizationAdminAccount returns an account only if some page
    lists it and its ID is the one asked for; it then returns no error,
    whatever a later request of the listing would have failed with, and
    has asked for no page after the one with the account.  It returns
    none only if no listed account has that ID (nil pages and nil entries
    are passed over); it then hands on the error of the listing as it is,
    having asked for every page and, when the listing fails, for the one
    that failed, and in any case once. *)
Theorem GetOrganizationAdminAccount_finds (conn : Client) (id : string) (w : World) :
  let pages := ListOrganizationAdminAccounts_pages conn in
  let res := fst (fst (GetOrganizationAdminAccount conn id w)) in
  let err := snd (fst (GetOrganizationAdminAccount conn id w)) in
  let requests := calls (snd (GetOrganizationAdminAccount conn id w)) - calls w in
  res = rangeAdminAccounts id (allAdminAccounts pages) /\
  (forall a, res = Some a ->
     err = None /\
     aws.ToString (AccountId a) = id /\
     (exists page, In (Some page) pages /\ In (Some a) (AdminAccounts page)) /\
     0 < requests <= length pages) /\
  (res = None ->
     err = ListOrganizationAdminAccounts_err conn /\
     (forall page a, In (Some page) pages -> In (Some a) (AdminAccounts page) ->
                     aws.ToString (AccountId a) <> id) /\
     requests = Nat.max 1 (length pages + match err with Some _ => 1 | None => 0 end)).
Proof.
  intros pages res err requests.
  pose proof (GetOrganizationAdminAccount_lookup conn id w) as Hlookup.
  fold pages in Hlookup.
  assert (Hres : res = rangeAdminAccounts id (allAdminAccounts pages)).
  { subst res. rewrite Hlookup. now destruct (rangeAdminAccounts _ _). }
  assert (Hin : forall a, In (Some a) (allAdminAccounts pages) <->
                          exists page, In (Some page) pages /\ In (Some a) (AdminAccounts page)).
  { intros a. unfold allAdminAccounts. rewrite in_concat. split.
    - intros (l & Hl & Ha). apply in_map_iff in Hl as ([page|] & <- & Hp); [eauto | destruct Ha].
    - intros (page & Hp & Ha). exists (AdminAccounts page). split; [|assumption].
      apply in_map_iff. now exists (Some page). }
  split; [exact Hres|]. split.
  - intros a Ha. rewrite Hres in Ha.
    refine (conj _ (conj _ (conj _ _))).
    + subst err. rewrite Hlookup, Ha. reflexivity.
    + now apply rangeAdminAccounts_Some in Ha.
    + apply Hin. now apply rangeAdminAccounts_Some in Ha.
    + pose proof (GetOrganizationAdminAccount_calls conn id w) as Hcalls.
      cbv zeta in Hcalls. fold pages in Hcalls. rewrite Ha in Hcalls.
      subst requests. lia.
  - intros Hnone. rewrite Hres in Hnone.
    assert (Herr : err = ListOrganizationAdminAccounts_err conn).
    { subst err. rewrite Hlookup, Hnone. reflexivity. }
    refine (conj Herr (conj _ _)).
    + intros page a Hp Ha. apply (rangeAdminAccounts_None id _ Hnone). apply Hin. eauto.
    + pose proof (GetOrganizationAdminAccount_calls conn id w) as Hcalls.
      cbv zeta in Hcalls. fold pages in Hcalls. rewrite Hnone in Hcalls.
      rewrite Herr. subst requests. lia.
Qed.
End MacieLookup.

(** ** Read and Create of the Macie organization admin account *)

Section MacieRead.
Import macie2.

Local Abbreviation gone err :=
  (errs.IsA_ResourceNotFoundException err ||
   tfawserr.ErrMessageContains err ErrCodeAccessDeniedException "Macie is not enabled").

(** Read, by what the lookup gave. *)
Lemma Read_by_lookup (meta : AWSClient) (d : schema.ResourceData) (w : World) :
  let conn := Macie2Client meta in
  let res := rangeAdminAccounts (schema.Id d)
               (allAdminAccounts (ListOrganizationAdminAccounts_pages conn)) in
  let err := ListOrganizationAdminAccounts_err conn in
  exists w',
    resourceOrganizationAdminAccountRead meta d w =
    match res with
    | Some a =>
        Some ([], schema.Set_ d "admin_account_id" (schema.VString <$> AccountId a), w')
    | None =>
        if negb (schema.IsNewResource d) && gone err then Some ([], schema.SetId d "", w')
        else
          match err with
          | Some _ =>
              Some (sdkdiag.AppendErrorf [] "reading Macie OrganizationAdminAccount (%s): %s"
                      err, d, w')
          | None =>
              if negb (schema.IsNewResource d) then Some ([], schema.SetId d "", w')
              else Some (sdkdiag.AppendFromErr [] (Some (NotFoundError None)), d, w')
          end
    end.
Proof.
  intros conn res err.
  pose proof (GetOrganizationAdminAccount_lookup conn (schema.Id d) w) as Hlookup.
  unfold resourceOrganizationAdminAccountRead. fold conn.
  destruct (GetOrganizationAdminAccount conn (schema.Id d) w) as [[res' err'] w'].
  cbn [fst] in Hlookup. fold res err in Hlookup. exists w'.
  destruct res as [a|]; injection Hlookup as -> ->.
  - cbn [errs.IsA_ResourceNotFoundException tfawserr.ErrMessageContains orb].
    now rewrite andb_false_r.
  - reflexivity.
Qed.

(** X2.  When the listing succeeds and holds an account with the ID of
    the resource, Read reports nothing, keeps the resource ID, and stores
    the account's ID as admin_account_id; that ID, when the account has
    one, is the resource ID. *)
Theorem Read_stores_the_listed_account
    (meta : AWSClient) (d : schema.ResourceData) (w : World) (a : AdminAccount) :
  ListOrganizationAdminAccounts_err (Macie2Client meta) = None ->
  rangeAdminAccounts (schema.Id d)
    (allAdminAccounts (ListOrganizationAdminAccounts_pages (Macie2Client meta))) = Some a ->
  exists d' w',
    resourceOrganizationAdminAccountRead meta d w = Some ([], d', w') /\
    schema.Id d' = schema.Id d /\
    schema.Get d' "admin_account_id" = schema.VString <$> AccountId a /\
    (forall s, AccountId a = Some s -> s = schema.Id d).
Proof.
  intros Herr Hres. destruct (Read_by_lookup meta d w) as [w' Hread].
  cbv zeta in Hread. rewrite Hres in Hread.
  eexists _, w'. split; [exact Hread|]. split; [reflexivity|]. split.
  - unfold schema.Get, schema.Set_. cbn [schema.attrs].
    destruct (AccountId a); cbn; [apply lookup_insert_eq | apply lookup_delete_eq].
  - intros s Hs. apply rangeAdminAccounts_Some in Hres as [_ Hid].
    rewrite Hs in Hid. exact Hid.
Qed.

(** X3.  For a resource that is not new, when no listed account has the
    ID of the resource, Read clears the resource ID and reports nothing,
    both when the listing fails with a ResourceNotFoundException or with
    an AccessDeniedException saying that Macie is not enabled and when it
    comes to its end without an error; the attributes stay as they
    were. *)
Theorem Read_removes_missing_account
    (meta : AWSClient) (d : schema.ResourceData) (w : World) :
  let err := ListOrganizationAdminAccounts_err (Macie2Client meta) in
  schema.IsNewResource d = false ->
  rangeAdminAccounts (schema.Id d)
    (allAdminAccounts (ListOrganizationAdminAccounts_pages (Macie2Client meta))) = None ->
  gone err = true \/ err = None ->
  exists w',
    resourceOrganizationAdminAccountRead meta d w = Some ([], schema.SetId d "", w').
Proof.
  intros err Hold Hres Hcase. destruct (Read_by_lookup meta d w) as [w' Hread].
  cbv zeta in Hread. fold err in Hread. rewrite Hres, Hold in Hread. cbn [negb andb] in Hread.
  exists w'. destruct Hcase as [Hgone|Herr].
  - now rewrite Hgone in Hread.
  - revert Hread. rewrite Herr. auto.
Qed.

(** X4.  For a new resource, Read never clears the resource ID; it
    reports nothing exactly when the listing holds an account with that
    ID (whatever a later request of the listing would have failed with),
    and an error diagnostic otherwise. *)
Theorem Read_of_new_resource_keeps_ID
    (meta : AWSClient) (d : schema.ResourceData) (w : World) :
  schema.IsNewResource d = true ->
  exists diags d' w',
    resourceOrganizationAdminAccountRead meta d w = Some (diags, d', w') /\
    schema.Id d' = schema.Id d /\
    (HasError diags = false <->
     exists a,
       rangeAdminAccounts (schema.Id d)
         (allAdminAccounts (ListOrganizationAdminAccounts_pages (Macie2Client meta))) = Some a).
Proof.
  intros Hnew. destruct (Read_by_lookup meta d w) as [w' Hread].
  cbv zeta in Hread. rewrite Hnew in Hread. cbn [negb andb] in Hread.
  destruct (rangeAdminAccounts _ _) as [a|].
  - do 3 eexists. split; [exact Hread|]. split; [reflexivity|].
    split; [eauto | reflexivity].
  - destruct (ListOrganizationAdminAccounts_err (Macie2Client meta)) as [e|];
      do 3 eexists; (split; [exact Hread|]); (split; [reflexivity|]);
      (split; [discriminate | intros [a [=]]]).
Qed.

End MacieRead.

(** X2 on the stored sample resource and a listing of two pages. *)
Lemma Read_stores_the_listed_account_witness :
  exists d' w',
    macie2.resourceOrganizationAdminAccountRead
      (sample_macie_stored.lists sample_macie_stored.two_pages None)
      sample_macie_stored.d (sample_macie.world "") = Some ([], d', w') /\
    schema.Id d' = sample_macie.account /\
    schema.Get d' "admin_account_id" = Some (schema.VString sample_macie.account) /\
    (forall s, Some sample_macie.account = Some s -> s = sample_macie.account).
Proof.
  exact (Read_stores_the_listed_account
           (sample_macie_stored.lists sample_macie_stored.two_pages None)
           sample_macie_stored.d (sample_macie.world "")
           {| macie2.AccountId := Some sample_macie.account;
              macie2.Status := Some "ENABLED" |}
           eq_refl eq_refl).
Defined.

(** X3 on the stored sample resource and a listing whose one page holds
    another account and whose next request fails with a
    ResourceNotFoundException. *)
Lemma Read_removes_missing_account_witness :
  exists w',
    macie2.resourceOrganizationAdminAccountRead
      (sample_macie_stored.lists sample_macie_stored.other_account
         (Some (ResourceNotFoundException "no administrator account")))
      sample_macie_stored.d (sample_macie.world "") =
    Some ([], schema.SetId sample_macie_stored.d "", w').
Proof.
  exact (Read_removes_missing_account
           (sample_macie_stored.lists sample_macie_stored.other_account
              (Some (ResourceNotFoundException "no administrator account")))
           sample_macie_stored.d (sample_macie.world "") eq_refl eq_refl
           (or_introl eq_refl)).
Defined.

(** X4 on the new sample resource once its ID is set, and a listing that
    holds the account on its second page and whose next request would
    fail. *)
Lemma Read_of_new_resource_keeps_ID_witness :
  exists diags d' w',
    macie2.resourceOrganizationAdminAccountRead
      (sample_macie_stored.lists sample_macie_stored.two_pages
         (Some (APIError "InternalServerException" "try again")))
      sample_macie_stored.created (sample_macie.world "") = Some (diags, d', w') /\
    schema.Id d' = sample_macie.account /\
    (HasError diags = false <->
     exists a,
       macie2.rangeAdminAccounts sample_macie.account
         (allAdminAccounts sample_macie_stored.two_pages) = Some a).
Proof.
  exact (Read_of_new_resource_keeps_ID
           (sample_macie_stored.lists sample_macie_stored.two_pages
              (Some (APIError "InternalServerException" "try again")))
           sample_macie_stored.created (sample_macie.world "") eq_refl).
Defined.

Section MacieCreateID.
Import macie2.
Variable onDeadline : error -> error.

(** Create, by the error at hand after the retry and the further call. *)
Lemma Create_by_final_error (meta : AWSClient) (d : schema.ResourceData) (w : World) :
  exists (final : error) (w2 : World),
    resourceOrganizationAdminAccountCreate onDeadline meta d w =
    match final with
    | Some _ =>
        Some (sdkdiag.AppendErrorf [] "creating Macie OrganizationAdminAccount: %s" final,
              d, w2)
    | None =>
        match resourceOrganizationAdminAccountRead meta
                (schema.SetId d (schema.GetString d "admin_account_id")) w2 with
        | Some (read_diags, d', wf) => Some (read_diags, d', wf)
        | None => None
        end
    end.
Proof.
  unfold resourceOrganizationAdminAccountCreate. unfold UniqueId. cbv iota beta.
  match goal with
  | |- context [retry.RetryContext _ _ _ (enableOnce ?c ?i) ?w0] =>
      destruct (RetryContext_finishes onDeadline c i w0) as (err & w1 & Hretry);
      rewrite Hretry
  end.
  match goal with
  | |- context [if tfresource.TimedOut err then ?call else _] =>
      destruct (if tfresource.TimedOut err then call else (err, w1)) as [final w2]
  end.
  exists final, w2. destruct final; [reflexivity|].
  now destruct (resourceOrganizationAdminAccountRead _ _ _) as [[[? ?] ?]|].
Qed.

(** X5.  Create of a new resource returns.  Either it reports the
    creation error and leaves the resource data as they were, or it has
    set the resource ID to the configured admin_account_id; and when it
    reports no error, the ID is the configured admin_account_id and the
    listing holds an account with that ID. *)
Theorem Create_sets_ID_to_admin_account_id
    (meta : AWSClient) (d : schema.ResourceData) (w : World) :
  schema.IsNewResource d = true ->
  exists diags d' wf,
    resourceOrganizationAdminAccountCreate onDeadline meta d w = Some (diags, d', wf) /\
    ((HasError diags = true /\ d' = d) \/
     schema.Id d' = schema.GetString d "admin_account_id") /\
    (HasError diags = false ->
     schema.Id d' = schema.GetString d "admin_account_id" /\
     exists a,
       rangeAdminAccounts (schema.GetString d "admin_account_id")
         (allAdminAccounts (ListOrganizationAdminAccounts_pages (Macie2Client meta))) = Some a).
Proof.
  intros Hnew. destruct (Create_by_final_error meta d w) as (final & w2 & Hcreate).
  destruct final as [e|].
  - do 3 eexists. split; [exact Hcreate|]. split; [left; split; reflexivity | discriminate].
  - destruct (Read_by_lookup meta (schema.SetId d (schema.GetString d "admin_account_id")) w2)
      as [wf Hread].
    cbv zeta in Hread. cbn [schema.SetId schema.IsNewResource schema.Id] in Hread.
    rewrite Hnew in Hread. cbn [negb andb] in Hread.
    destruct (rangeAdminAccounts _ _) as [a|] eqn:Hfound.
    + rewrite Hread in Hcreate. do 3 eexists. split; [exact Hcreate|].
      split; [right; reflexivity|]. intros _. split; [reflexivity | eauto].
    + destruct (ListOrganizationAdminAccounts_err (Macie2Client meta)) as [e|];
        rewrite Hread in Hcreate; do 3 eexists; (split; [exact Hcreate|]);
        (split; [right; reflexivity | discriminate]).
Qed.
End MacieCreateID.

(** X5 on the new sample resource against a service that enables at once. *)
Lemma Create_sets_ID_to_admin_account_id_witness :
  exists diags d' wf,
    macie2.resourceOrganizationAdminAccountCreate sample_macie.bare_timeout
      (sample_macie.always None) sample_macie.d
      (sample_macie.world "terraform-20261030120000000000000001") = Some (diags, d', wf) /\
    ((HasError diags = true /\ d' = sample_macie.d) \/
     schema.Id d' = schema.GetString sample_macie.d "admin_account_id") /\
    (HasError diags = false ->
     schema.Id d' = schema.GetString sample_macie.d "admin_account_id" /\
     exists a,
       macie2.rangeAdminAccounts (schema.GetString sample_macie.d "admin_account_id")
         (allAdminAccounts
            (macie2.ListOrganizationAdminAccounts_pages
               (macie2.Macie2Client (sample_macie.always None)))) = Some a).
Proof.
  exact (Create_sets_ID_to_admin_account_id sample_macie.bare_timeout
           (sample_macie.always None) sample_macie.d
           (sample_macie.world "terraform-20261030120000000000000001") eq_refl).
Defined.

(** ** Reading, creating and deleting a slot *)

Lemma ExpandResourceId_parts id n parts :
  flex.ExpandResourceId id n false = (parts, None) ->
  exists l, parts = Some l /\ length l = n.
Proof.
  unfold flex.ExpandResourceId.
  destruct (length _ <=? 1)%nat; [discriminate|].
  destruct (Nat.eqb_spec (length (strings.Split id flex.ResourceIdSeparator)) n) as [Hlen|];
    cbn [negb]; [|discriminate].
  match goal with |- context [if ?b then _ else _] => destruct b end; [discriminate|].
  intros [= <-]. eauto.
Qed.

Section SlotRead.
Context {V T : Type}.
Variable fx : lexv2models.AutoFlex V T.
Variable conn : lexmodelsv2.Client.

Import lexmodelsv2 lexv2models.

(** findSlotByID on an ID of five parts: one DescribeSlot with the parts. *)
Lemma findSlotByID_by_parts id p0 p1 p2 p3 p4 :
  flex.ExpandResourceId id slotIDPartCount false = (Some [p0; p1; p2; p3; p4], None) ->
  let input := DescribeSlotInput.mk (Some p0) (Some p1) (Some p2) (Some p3) (Some p4) in
  findSlotByID conn id =
  Ret (match DescribeSlot conn input with
       | (_, Some err) =>
           if errs.IsA_ResourceNotFoundException (Some err)
           then inr (NotFoundError (Some err))
           else inr err
       | (None, None) => inr (NotFoundError None)
       | (Some out, None) => inl out
       end, [DescribeSlot_req input]).
Proof.
  intros Hparts input. unfold findSlotByID. rewrite Hparts.
  cbv [default from_option Datatypes.id index nth_error mbind Outcome_bind aws.String].
  fold input.
  destruct (DescribeSlot conn input) as [[out|] [err|]];
    try destruct (errs.IsA_ResourceNotFoundException (Some err)); reflexivity.
Qed.

(** X6.  findSlotByID never panics: it indexes the parts of the ID only
    after ExpandResourceId has returned five of them.  It sends at most one
    request, and Read does not panic either. *)
Theorem findSlotByID_never_panics :
  (forall id, exists found requests,
      findSlotByID conn id = Ret (found, requests) /\ length requests <= 1) /\
  (forall (req : ReadRequest V T) (resp : Response V T),
      panicked (Read fx conn req resp) = false).
Proof.
  assert (Hfind : forall id, exists found requests,
               findSlotByID conn id = Ret (found, requests) /\ length requests <= 1).
  { intros id.
    destruct (flex.ExpandResourceId id slotIDPartCount false) as [parts [e|]] eqn:Hexp.
    - exists (inr e), []. unfold findSlotByID. rewrite Hexp. split; [reflexivity | cbn; lia].
    - destruct (ExpandResourceId_parts _ _ _ Hexp) as (l & -> & Hlen).
      destruct l as [|p0 [|p1 [|p2 [|p3 [|p4 [|]]]]]]; try discriminate Hlen.
      rewrite (findSlotByID_by_parts id p0 p1 p2 p3 p4 Hexp). eauto. }
  split; [exact Hfind|].
  intros req resp. unfold Read. destruct (HasError _); [reflexivity|].
  destruct (Hfind (types.ValueString (ID (Get_value (ReadRequest_State req)))))
    as (found & requests & -> & _).
  cbn [mbind Outcome_bind]. destruct found as [out|err].
  - destruct (Flatten_DescribeSlotOutput fx out _) as [fdiags state].
    now destruct (HasError _).
  - now destruct (tfresource.NotFound (Some err)).
Qed.

(** X7.  When the state decodes and ExpandResourceId refuses its ID, Read
    sends no request, reports the error of the parser and leaves the state
    as it was. *)
Theorem Read_refuses_malformed_ID
    (req : ReadRequest V T) (resp : Response V T) parts (e : Err) :
  let decoded := Append resp (Get_diags (ReadRequest_State req)) in
  HasError (resp_Diagnostics decoded) = false ->
  flex.ExpandResourceId (types.ValueString (ID (Get_value (ReadRequest_State req))))
    slotIDPartCount false = (parts, Some e) ->
  tfresource.NotFound (Some e) = false ->
  Read fx conn req resp = Ret (Problem decoded ErrActionSetting (Some e), []) /\
  resp_State (Problem decoded ErrActionSetting (Some e)) = resp_State resp.
Proof.
  intros decoded Hdec Hexp Hnf. split; [|reflexivity].
  unfold Read. fold decoded. rewrite Hdec. unfold findSlotByID. rewrite Hexp.
  cbn [mbind Outcome_bind]. now rewrite Hnf.
Qed.

(** X8.  When the state decodes, its ID parses into five parts and
    DescribeSlot fails with a ResourceNotFoundException, Read sends that one
    request, removes the resource from the state and reports nothing
    new. *)
Theorem Read_removes_missing_slot
    (req : ReadRequest V T) (resp : Response V T) p0 p1 p2 p3 p4 out (err : Err) :
  let decoded := Append resp (Get_diags (ReadRequest_State req)) in
  let input := DescribeSlotInput.mk (Some p0) (Some p1) (Some p2) (Some p3) (Some p4) in
  HasError (resp_Diagnostics decoded) = false ->
  flex.ExpandResourceId (types.ValueString (ID (Get_value (ReadRequest_State req))))
    slotIDPartCount false = (Some [p0; p1; p2; p3; p4], None) ->
  DescribeSlot conn input = (out, Some err) ->
  errs.IsA_ResourceNotFoundException (Some err) = true ->
  Read fx conn req resp = Ret (RemoveResource decoded, [DescribeSlot_req input]) /\
  resp_State (RemoveResource decoded) = None /\
  resp_Diagnostics (RemoveResource decoded) = resp_Diagnostics decoded.
Proof.
  intros decoded input Hdec Hexp Hdescribe Hgone. split; [|split; reflexivity].
  unfold Read. fold decoded. rewrite Hdec.
  rewrite (findSlotByID_by_parts _ p0 p1 p2 p3 p4 Hexp). fold input.
  rewrite Hdescribe, Hgone. cbn [mbind Outcome_bind]. now destruct out.
Qed.
End SlotRead.

(** X7 on a state whose ID is a bare slot identifier. *)
Lemma Read_refuses_malformed_ID_witness :
  lexv2models.Read sample.fx (sample.service "SLOT000001" "BOT0000001")
    {| lexv2models.ReadRequest_State := sample.decoded sample_lex.malformed |}
    {| lexv2models.resp_Diagnostics := [];
       lexv2models.resp_State := Some sample_lex.malformed |} =
  Ret ({| lexv2models.resp_Diagnostics :=
            [{| severity := SeverityError; summary := lexv2models.ErrActionSetting;
                cause := Some (Errorf "unexpected format for ID (%v), expected more than one part" None) |}];
          lexv2models.resp_State := Some sample_lex.malformed |}, []).
Proof.
  exact (proj1 (Read_refuses_malformed_ID sample.fx
                  (sample.service "SLOT000001" "BOT0000001")
                  {| lexv2models.ReadRequest_State := sample.decoded sample_lex.malformed |}
                  {| lexv2models.resp_Diagnostics := [];
                     lexv2models.resp_State := Some sample_lex.malformed |}
                  None
                  (Errorf "unexpected format for ID (%v), expected more than one part" None)
                  eq_refl eq_refl eq_refl)).
Defined.

(** X8 on the sample slot against a service on which it is gone. *)
Lemma Read_removes_missing_slot_witness :
  lexv2models.Read sample.fx sample_lex.gone
    {| lexv2models.ReadRequest_State := sample.decoded sample.state |}
    sample.prior_response =
  Ret ({| lexv2models.resp_Diagnostics := []; lexv2models.resp_State := None |},
       [lexmodelsv2.DescribeSlot_req
          (lexmodelsv2.DescribeSlotInput.mk (Some "BOT0000001") (Some "DRAFT")
             (Some "INTENT0001") (Some "en_US") (Some "SLOT000001"))]).
Proof.
  exact (proj1 (Read_removes_missing_slot sample.fx sample_lex.gone
                  {| lexv2models.ReadRequest_State := sample.decoded sample.state |}
                  sample.prior_response
                  "BOT0000001" "DRAFT" "INTENT0001" "en_US" "SLOT000001" None
                  (ResourceNotFoundException "no such slot")
                  eq_refl eq_refl eq_refl eq_refl)).
Defined.

Section SlotCreateDelete.
Context {V T : Type}.
Variable fx : lexv2models.AutoFlex V T.
Variable conn : lexmodelsv2.Client.

Import lexmodelsv2 lexv2models.

Lemma HasError_AddError diags action err :
  HasError (AddError diags action err) = true.
Proof. unfold HasError, AddError. rewrite existsb_app. cbn. apply orb_true_r. Qed.

(** X9.  Delete of a slot never touches the state in its response.  For
    a state that decodes without error it sends exactly one DeleteSlot, and
    it reports an error exactly when that call fails with something other
    than a ResourceNotFoundException: a slot already gone is deleted
    without complaint. *)
Theorem Delete_slot_tolerates_absence
    (req : DeleteRequest V T) (resp : Response V T) :
  let id := types.ValueString (ID (Get_value (DeleteRequest_State req))) in
  let input := DeleteSlotInput.mk (Some id) (Some id) (Some id) (Some id) (Some id) in
  let result := Delete conn req resp in
  resp_State (fst result) = resp_State resp /\
  (HasError (resp_Diagnostics resp ++ Get_diags (DeleteRequest_State req)) = false ->
   snd result = [DeleteSlot_req input] /\
   (HasError (resp_Diagnostics (fst result)) = true <->
    exists e, DeleteSlot conn input = Some e /\
              errs.IsA_ResourceNotFoundException (Some e) = false)).
Proof.
  intros id input result. subst result. unfold Delete.
  cbn [Append resp_Diagnostics resp_State]. unfold aws.String. fold id. fold input.
  destruct (HasError (resp_Diagnostics resp ++ _)) eqn:Hdec.
  - split; [reflexivity | discriminate].
  - destruct (DeleteSlot conn input) as [e|] eqn:Hdelete.
    + destruct (errs.IsA_ResourceNotFoundException (Some e)) eqn:Hgone;
        cbn [fst snd resp_State resp_Diagnostics Problem Append].
      * split; [reflexivity|]. intros _. split; [reflexivity|]. rewrite Hdec.
        split; [discriminate | intros (e' & [= <-] & He'); congruence].
      * split; [reflexivity|]. intros _. split; [reflexivity|].
        rewrite HasError_AddError. split; [eauto | reflexivity].
    + cbn [fst snd resp_State resp_Diagnostics Append]. split; [reflexivity|].
      intros _. split; [reflexivity|]. rewrite Hdec.
      split; [discriminate | intros (e' & [=] & _)].
Qed.

(** X10.  Create of a slot sends at most one request and never drops a
    diagnostic it was handed.  When its response carries an error it has
    left the state as it was; when it carries none it has sent CreateSlot
    and written a state. *)
Theorem Create_slot_writes_state_only_without_error
    (req : CreateRequest V T) (resp : Response V T) :
  let result := Create fx conn req resp in
  (exists more, resp_Diagnostics (fst result) = resp_Diagnostics resp ++ more) /\
  (HasError (resp_Diagnostics (fst result)) = true ->
   resp_State (fst result) = resp_State resp) /\
  (HasError (resp_Diagnostics (fst result)) = false ->
   (exists input, snd result = [CreateSlot_req input]) /\
   exists data, resp_State (fst result) = Some data).
Proof.
  intros result. subst result. unfold Create.
  set (gd := Get_diags (CreateRequest_Plan req)).
  cbn [Append resp_Diagnostics resp_State].
  destruct (HasError (resp_Diagnostics resp ++ gd)) eqn:Hdec.
  { cbn [fst snd resp_Diagnostics resp_State Append]. rewrite Hdec.
    split; [eauto|]. split; [reflexivity | discriminate]. }
  destruct (Expand_CreateSlotInput fx _ _) as [ediags input].
  cbn [Append resp_Diagnostics resp_State].
  destruct (HasError ((resp_Diagnostics resp ++ gd) ++ ediags)) eqn:Hexp.
  { cbn [fst snd resp_Diagnostics resp_State Append]. rewrite Hexp.
    split; [exists (gd ++ ediags); now rewrite app_assoc|].
    split; [reflexivity | discriminate]. }
  assert (Hproblem : forall action err,
             let r := Problem {| resp_Diagnostics := (resp_Diagnostics resp ++ gd) ++ ediags;
                                 resp_State := resp_State resp |} action err in
             (exists more, resp_Diagnostics r = resp_Diagnostics resp ++ more) /\
             (HasError (resp_Diagnostics r) = true -> resp_State r = resp_State resp) /\
             (HasError (resp_Diagnostics r) = false ->
              (exists i, [CreateSlot_req input] = [CreateSlot_req i]) /\
              exists data, resp_State r = Some data)).
  { intros action err r. subst r. cbn [Problem resp_Diagnostics resp_State].
    rewrite HasError_AddError. split; [|split; [reflexivity | discriminate]].
    unfold AddError. rewrite <- !app_assoc. eauto. }
  destruct (CreateSlot conn input) as [[out|] [e|]]; cbn [fst snd]; try apply Hproblem.
  destruct (flex.FlattenResourceId _ _ _) as [id [e|]]; cbn [fst snd]; [apply Hproblem|].
  destruct (Flatten_CreateSlotOutput fx out _) as [fdiags flat].
  cbn [Append resp_Diagnostics resp_State].
  destruct (HasError (((resp_Diagnostics resp ++ gd) ++ ediags) ++ fdiags)) eqn:Hflat;
    cbn [fst snd resp_Diagnostics resp_State State_Set Append]; rewrite Hflat;
    (split; [exists (gd ++ ediags ++ fdiags); now rewrite <- !app_assoc|]).
  - split; [reflexivity | discriminate].
  - split; [discriminate | eauto].
Qed.

(** X11.  When CreateSlot has succeeded and FlattenResourceId refuses the
    five identifiers of its output, Create reports that error and writes
    no state, although the request that created the slot has been sent. *)
Theorem Create_slot_with_refused_identifiers
    (req : CreateRequest V T) (resp : Response V T)
    (ediags : Diagnostics) (in_ : CreateSlotInput.t) (out : CreateSlotOutput.t)
    (id : string) (e : Err) :
  let plan := Get_value (CreateRequest_Plan req) in
  let decoded := Append resp (Get_diags (CreateRequest_Plan req)) in
  HasError (resp_Diagnostics decoded) = false ->
  Expand_CreateSlotInput fx plan
    (CreateSlotInput.mk None None None None None
       (aws.String (types.ValueString (Name plan))) None) = (ediags, in_) ->
  HasError (resp_Diagnostics (Append decoded ediags)) = false ->
  CreateSlot conn in_ = (Some out, None) ->
  flex.FlattenResourceId
    [ aws.ToString (CreateSlotOutput.BotId out);
      aws.ToString (CreateSlotOutput.BotVersion out);
      aws.ToString (CreateSlotOutput.IntentId out);
      aws.ToString (CreateSlotOutput.LocaleId out);
      aws.ToString (CreateSlotOutput.SlotId out) ] slotIDPartCount false = (id, Some e) ->
  Create fx conn req resp =
    (Problem (Append decoded ediags) ErrActionCreating (Some e), [CreateSlot_req in_]) /\
  resp_State (Problem (Append decoded ediags) ErrActionCreating (Some e)) = resp_State resp.
Proof.
  intros plan decoded Hdec Hexp Hexp_ok Hcreate Hflat. split; [|reflexivity].
  unfold Create. fold plan decoded. rewrite Hdec, Hexp, Hexp_ok, Hcreate, Hflat.
  reflexivity.
Qed.
End SlotCreateDelete.

(** X11 on a service that answers CreateSlot without a slot identifier. *)
Lemma Create_slot_with_refused_identifiers_witness :
  lexv2models.Create sample.fx (sample.service "" "BOT0000001")
    {| lexv2models.CreateRequest_Plan := sample.decoded sample.plan |}
    sample.blank_response =
  ({| lexv2models.resp_Diagnostics :=
        [{| severity := SeverityError; summary := lexv2models.ErrActionCreating;
            cause := Some (Errorf "unexpected format for ID (%[1]s), the following id parts indexes are blank (%v)" None) |}];
      lexv2models.resp_State := None |},
   [lexmodelsv2.CreateSlot_req
      (lexmodelsv2.CreateSlotInput.mk (Some "BOT0000001") (Some "DRAFT")
         (Some "pick a size") (Some "INTENT0001") (Some "en_US") (Some "size") None)]).
Proof.
  exact (proj1 (Create_slot_with_refused_identifiers sample.fx
                  (sample.service "" "BOT0000001")
                  {| lexv2models.CreateRequest_Plan := sample.decoded sample.plan |}
                  sample.blank_response []
                  (lexmodelsv2.CreateSlotInput.mk (Some "BOT0000001") (Some "DRAFT")
                     (Some "pick a size") (Some "INTENT0001") (Some "en_US")
                     (Some "size") None)
                  (lexmodelsv2.CreateSlotOutput.mk (Some "BOT0000001") (Some "DRAFT")
                     (Some "pick a size") (Some "INTENT0001") (Some "en_US")
                     (Some "") (Some "size") None)
                  ""
                  (Errorf "unexpected format for ID (%[1]s), the following id parts indexes are blank (%v)" None)
                  eq_refl eq_refl eq_refl eq_refl eq_refl)).
Defined.

(** ** What the Grafana SAML configuration handlers send *)

Section GrafanaSends.
Import grafana.

(** X12.  The upsert builds no assertion attributes exactly when none of
    the six assertion arguments is set, and otherwise a structure that
    carries each set argument in its field and nothing in the others. *)
Theorem expandAssertionAttributes_follows_configuration (d : schema.ResourceData) :
  (expandAssertionAttributes d = None <->
   schema.GetOk d "email_assertion" = None /\ schema.GetOk d "groups_assertion" = None /\
   schema.GetOk d "login_assertion" = None /\ schema.GetOk d "name_assertion" = None /\
   schema.GetOk d "org_assertion" = None /\ schema.GetOk d "role_assertion" = None) /\
  (forall a, expandAssertionAttributes d = Some a ->
     Email a = schema.str <$> schema.GetOk d "email_assertion" /\
     Groups a = schema.str <$> schema.GetOk d "groups_assertion" /\
     Login a = schema.str <$> schema.GetOk d "login_assertion" /\
     Name a = schema.str <$> schema.GetOk d "name_assertion" /\
     Org a = schema.str <$> schema.GetOk d "org_assertion" /\
     Role a = schema.str <$> schema.GetOk d "role_assertion").
Proof.
  unfold expandAssertionAttributes, orNew, emptyAssertionAttributes, aws.String.
  destruct (schema.GetOk d "email_assertion"), (schema.GetOk d "groups_assertion"),
    (schema.GetOk d "login_assertion"), (schema.GetOk d "name_assertion"),
    (schema.GetOk d "org_assertion"), (schema.GetOk d "role_assertion");
    cbn [default from_option Email Groups Login Name Org Role fmap option_fmap option_map];
    (split;
     [ split; [ intros H; try discriminate H; repeat split
              | intros (? & ? & ? & ? & ? & ?); try discriminate; reflexivity ]
     | intros a [= <-]; repeat split ]).
Qed.

(** X13.  The upsert, which the resource registers for Create and for
    Update, sends no UpdateWorkspaceAuthentication and makes no other
    call: the schema of the resource declares no workspace_id, so on
    every input the conversion of [d.Get("workspace_id")] to a string in
    its first statement panics. *)
Theorem Upsert_panics_before_any_call (conn : Conn) (d : schema.ResourceData) :
  schema.Schema_ ResourceWorkspaceSamlConfiguration !! "workspace_id" = None /\
  resourceWorkspaceSamlConfigurationUpsert conn d =
    ([], Panic "interface conversion: interface {} is nil, not string") /\
  schema.Create ResourceWorkspaceSamlConfiguration =
    Some resourceWorkspaceSamlConfigurationUpsert /\
  schema.Update ResourceWorkspaceSamlConfiguration =
    Some resourceWorkspaceSamlConfigurationUpsert.
Proof.
  assert (Hkey : resourceSchema !! "workspace_id" = None) by (vm_compute; reflexivity).
  split; [exact Hkey|]. split; [|split; reflexivity].
  unfold resourceWorkspaceSamlConfigurationUpsert, schema.GetStringIn.
  rewrite Hkey. reflexivity.
Qed.

(** X14.  Every UpdateWorkspaceAuthentication a delete sends names the
    stored workspace, hands back the authentication providers the workspace
    has, and carries no SAML configuration at all. *)
Theorem Delete_sends_no_configuration (conn : Conn) (d : schema.ResourceData) input :
  In (UpdateWorkspaceAuthentication_call input)
     (fst (resourceWorkspaceSamlConfigurationDelete conn d)) ->
  WorkspaceId input = Some (schema.Id d) /\
  SamlConfiguration_ input = None /\
  exists workspace authentication,
    FindWorkspaceByID conn (schema.Id d) = (Some workspace, None) /\
    Authentication workspace = Some authentication /\
    AuthenticationProviders input = Providers authentication.
Proof.
  unfold resourceWorkspaceSamlConfigurationDelete.
  destruct (FindWorkspaceByID conn (schema.Id d)) as [workspace [e|]].
  { intros [Hin|[]]; discriminate. }
  destruct workspace as [workspace|]; [|intros [Hin|[]]; discriminate].
  cbn [mbind option_bind].
  destruct (Authentication workspace) as [authentication|] eqn:Hauth;
    [|intros [Hin|[]]; discriminate].
  cbv zeta.
  match goal with
  | |- context [UpdateWorkspaceAuthentication conn ?i] => set (sent_input := i)
  end.
  intros Hin.
  assert (input = sent_input) as ->.
  { destruct (UpdateWorkspaceAuthentication conn sent_input).
    - destruct Hin as [Hin|[Hin|[]]]; [discriminate | now injection Hin].
    - destruct (waitWorkspaceSamlConfigurationDeleted conn _ _);
        (destruct Hin as [Hin|[Hin|[Hin|[]]]];
         [discriminate | now injection Hin | discriminate]). }
  split; [reflexivity|]. split; [reflexivity|]. now exists workspace, authentication.
Qed.

(** X15.  When the lookup of the workspace fails, the delete sends no
    update and does not wait: it returns an error that wraps the error of
    the lookup, also when that error says that the workspace was not
    found, and leaves the resource data as they were. *)
Theorem Delete_stops_at_failed_lookup (conn : Conn) (d : schema.ResourceData)
    workspace e :
  FindWorkspaceByID conn (schema.Id d) = (workspace, Some e) ->
  resourceWorkspaceSamlConfigurationDelete conn d =
  ([FindWorkspaceByID_call (schema.Id d)],
   Ret (Some (Errorf "error deleting Grafana Workspace Saml Configuration (%s): %w"
                (Some e)), d)) /\
  tfresource.NotFound
    (Some (Errorf "error deleting Grafana Workspace Saml Configuration (%s): %w" (Some e))) =
  tfresource.NotFound (Some e).
Proof.
  intros Hfind. unfold resourceWorkspaceSamlConfigurationDelete.
  rewrite Hfind. split; reflexivity.
Qed.
End GrafanaSends.

(** X14 on the stored sample resource. *)
Lemma Delete_sends_no_configuration_witness :
  Some sample_grafana.workspace_id = Some (schema.Id sample_grafana.stored) /\
  (None : option grafana.SamlConfiguration) = None /\
  exists workspace authentication,
    grafana.FindWorkspaceByID (sample_grafana.conn sample_grafana.complete)
      (schema.Id sample_grafana.stored) = (Some workspace, None) /\
    grafana.Authentication workspace = Some authentication /\
    Some ["SAML"] = grafana.Providers authentication.
Proof.
  apply (Delete_sends_no_configuration (sample_grafana.conn sample_grafana.complete)
           sample_grafana.stored
           {| grafana.AuthenticationProviders := Some ["SAML"];
              grafana.SamlConfiguration_ := None;
              grafana.WorkspaceId := Some sample_grafana.workspace_id |}).
  vm_compute. right. left. reflexivity.
Defined.

(** X15 on the stored sample resource and a service that does not find
    the workspace. *)
Lemma Delete_stops_at_failed_lookup_witness :
  grafana.resourceWorkspaceSamlConfigurationDelete sample_grafana.no_workspace
    sample_grafana.stored =
  ([grafana.FindWorkspaceByID_call sample_grafana.workspace_id],
   Ret (Some (Errorf "error deleting Grafana Workspace Saml Configuration (%s): %w"
                (Some (NotFoundError None))), sample_grafana.stored)) /\
  tfresource.NotFound
    (Some (Errorf "error deleting Grafana Workspace Saml Configuration (%s): %w"
             (Some (NotFoundError None)))) =
  tfresource.NotFound (Some (NotFoundError None)).
Proof.
  exact (Delete_stops_at_failed_lookup sample_grafana.no_workspace sample_grafana.stored
           None (NotFoundError None) eq_refl).
Defined.

(** ** What the Grafana SAML configuration Read stores *)

Section GrafanaStores.
Import grafana.

Lemma Get_Set_ d key v key' :
  schema.Get (schema.Set_ d key v) key' =
  if decide (key = key') then v else schema.Get d key'.
Proof.
  unfold schema.Get, schema.Set_. cbn [schema.attrs].
  destruct v as [v|]; case_decide as Hk.
  - subst. apply lookup_insert_eq.
  - now apply lookup_insert_ne.
  - subst. apply lookup_delete_eq.
  - now apply lookup_delete_ne.
Qed.

Lemma Get_set_if_not_nil d key v key' :
  schema.Get (set_if_not_nil d key v) key' =
  if decide (key = key')
  then match v with
       | Some _ => v
       | None => schema.Get d key'
       end
  else schema.Get d key'.
Proof.
  unfold set_if_not_nil. destruct v as [v|]; [apply Get_Set_ | now case_decide].
Qed.

(** Read when nothing is nil: the resource data it returns. *)
Lemma Read_when_complete (conn : Conn) (d : schema.ResourceData) s c r a i :
  FindSamlConfigurationByID conn (schema.Id d) = (Some s, None) ->
  Configuration s = Some c -> RoleValues_ c = Some r ->
  AssertionAttributes_ c = Some a -> IdpMetadata_ c = Some i ->
  snd (resourceWorkspaceSamlConfigurationRead conn d) =
  Ret (None,
       let d := set_if_not_nil d "admin_role_values" (list_value (Admin r)) in
       let d := set_if_not_nil d "allowed_organizations" (list_value (AllowedOrganizations c)) in
       let d := schema.Set_ d "editor_role_values" (list_value (Editor r)) in
       let d := set_if_not_nil d "email_assertion" (string_value (Email a)) in
       let d := set_if_not_nil d "groups_assertion" (string_value (Groups a)) in
       let d := set_if_not_nil d "idp_metadata_url" (string_value (Url i)) in
       let d := set_if_not_nil d "idp_metadata_xml" (string_value (Xml i)) in
       let d := set_if_not_nil d "login_assertion" (string_value (Login a)) in
       let d := set_if_not_nil d "login_validity_duration"
                  (schema.VInt <$> LoginValidityDuration c) in
       let d := set_if_not_nil d "name_assertion" (string_value (Name a)) in
       let d := set_if_not_nil d "org_assertion" (string_value (Org a)) in
       let d := set_if_not_nil d "role_assertion" (string_value (Role a)) in
       schema.Set_ d "status" (string_value (Status s))).
Proof.
  intros Hfind Hc Hr Ha Hi. unfold resourceWorkspaceSamlConfigurationRead.
  rewrite Hfind. cbn [tfresource.NotFound andb snd deref mbind Outcome_bind].
  rewrite Hc. cbn [deref mbind Outcome_bind]. rewrite Hr. cbn [deref mbind Outcome_bind].
  rewrite Ha. cbn [deref mbind Outcome_bind]. rewrite Hi. reflexivity.
Qed.

Lemma set_if_not_nil_frame d key v :
  schema.Id (set_if_not_nil d key v) = schema.Id d /\
  schema.IsNewResource (set_if_not_nil d key v) = schema.IsNewResource d /\
  schema.timeouts (set_if_not_nil d key v) = schema.timeouts d.
Proof. now destruct v. Qed.

Ltac frame_through :=
  repeat first
    [ rewrite (proj1 (set_if_not_nil_frame _ _ _))
    | rewrite (proj1 (proj2 (set_if_not_nil_frame _ _ _)))
    | rewrite (proj2 (proj2 (set_if_not_nil_frame _ _ _)))
    | progress cbn [schema.Set_ schema.Id schema.IsNewResource schema.timeouts] ].

Ltac lookup_through :=
  repeat (first [rewrite Get_Set_ | rewrite Get_set_if_not_nil];
          case_decide; try discriminate; try congruence).

(** X16.  Whatever Read returns with, it has kept the new-resource mark
    and the timeouts, the resource ID is the one it had or blank, and every
    attribute that is not in the schema of the resource is as it was. *)
Theorem Read_touches_schema_attributes_only (conn : Conn) (d : schema.ResourceData) :
  match snd (resourceWorkspaceSamlConfigurationRead conn d) with
  | Ret (err, d') =>
      schema.IsNewResource d' = schema.IsNewResource d /\
      schema.timeouts d' = schema.timeouts d /\
      (schema.Id d' = schema.Id d \/ schema.Id d' = "") /\
      forall key,
        schema.Schema_ ResourceWorkspaceSamlConfiguration !! key = None ->
        schema.Get d' key = schema.Get d key
  | Panic _ => True
  end.
Proof.
  destruct (FindSamlConfigurationByID conn (schema.Id d)) as [saml err] eqn:Hfind.
  unfold resourceWorkspaceSamlConfigurationRead. rewrite Hfind.
  destruct (tfresource.NotFound err && negb (schema.IsNewResource d)).
  { cbn. auto. }
  destruct err as [e|]; [cbn; auto|].
  destruct saml as [s|]; [|exact I].
  destruct (Configuration s) as [c|] eqn:Hc; [|cbn; rewrite Hc; exact I].
  destruct (RoleValues_ c) as [r|] eqn:Hr; [|cbn; rewrite Hc; cbn; rewrite Hr; exact I].
  destruct (AssertionAttributes_ c) as [a|] eqn:Ha;
    [|cbn; rewrite Hc; cbn; rewrite Hr; cbn; rewrite Ha; exact I].
  destruct (IdpMetadata_ c) as [i|] eqn:Hi;
    [|cbn; rewrite Hc; cbn; rewrite Hr; cbn; rewrite Ha; cbn; rewrite Hi; exact I].
  pose proof (Read_when_complete conn d s c r a i Hfind Hc Hr Ha Hi) as Hread.
  unfold resourceWorkspaceSamlConfigurationRead in Hread. rewrite Hfind in Hread.
  cbn [tfresource.NotFound andb] in Hread. rewrite Hread. cbv zeta.
  split; [|split; [|split]].
  - frame_through. reflexivity.
  - frame_through. reflexivity.
  - left. frame_through. reflexivity.
  - intros key Hkey.
    repeat (first [rewrite Get_Set_ | rewrite Get_set_if_not_nil];
            case_decide; [subst key; vm_compute in Hkey; discriminate Hkey|]).
    reflexivity.
Qed.

(** X17.  When the SAML authentication found has its configuration, role
    values, assertion attributes and IdP metadata, Read returns no error and
    keeps the resource ID; it stores the editor role values and the status
    as they are (clearing them when nil), stores each other attribute of
    the configuration that is not nil, and leaves the attribute as it was
    where the configuration has nil. *)
Theorem Read_stores_configuration (conn : Conn) (d : schema.ResourceData) s c r a i :
  FindSamlConfigurationByID conn (schema.Id d) = (Some s, None) ->
  Configuration s = Some c -> RoleValues_ c = Some r ->
  AssertionAttributes_ c = Some a -> IdpMetadata_ c = Some i ->
  let kept key (v : option schema.Value) :=
    match v with
    | Some _ => v
    | None => schema.Get d key
    end in
  exists d',
    snd (resourceWorkspaceSamlConfigurationRead conn d) = Ret (None, d') /\
    schema.Id d' = schema.Id d /\
    schema.Get d' "editor_role_values" = schema.VList <$> Editor r /\
    schema.Get d' "status" = schema.VString <$> Status s /\
    schema.Get d' "admin_role_values" = kept "admin_role_values" (schema.VList <$> Admin r) /\
    schema.Get d' "allowed_organizations" =
      kept "allowed_organizations" (schema.VList <$> AllowedOrganizations c) /\
    schema.Get d' "email_assertion" = kept "email_assertion" (schema.VString <$> Email a) /\
    schema.Get d' "groups_assertion" = kept "groups_assertion" (schema.VString <$> Groups a) /\
    schema.Get d' "idp_metadata_url" = kept "idp_metadata_url" (schema.VString <$> Url i) /\
    schema.Get d' "idp_metadata_xml" = kept "idp_metadata_xml" (schema.VString <$> Xml i) /\
    schema.Get d' "login_assertion" = kept "login_assertion" (schema.VString <$> Login a) /\
    schema.Get d' "login_validity_duration" =
      kept "login_validity_duration" (schema.VInt <$> LoginValidityDuration c) /\
    schema.Get d' "name_assertion" = kept "name_assertion" (schema.VString <$> Name a) /\
    schema.Get d' "org_assertion" = kept "org_assertion" (schema.VString <$> Org a) /\
    schema.Get d' "role_assertion" = kept "role_assertion" (schema.VString <$> Role a).
Proof.
  intros Hfind Hc Hr Ha Hi kept.
  eexists. split; [exact (Read_when_complete conn d s c r a i Hfind Hc Hr Ha Hi)|].
  cbv zeta. subst kept. unfold string_value, list_value.
  split; [frame_through; reflexivity|].
  repeat split; lookup_through; reflexivity.
Qed.

End GrafanaStores.

(** X17 on the stored sample resource and the complete sample response. *)
Lemma Read_stores_configuration_witness :
  exists d',
    snd (grafana.resourceWorkspaceSamlConfigurationRead
           (sample_grafana.conn sample_grafana.complete) sample_grafana.stored) =
    Ret (None, d') /\
    schema.Id d' = sample_grafana.workspace_id /\
    schema.Get d' "editor_role_values" = Some (schema.VList ["editor"]) /\
    schema.Get d' "status" = Some (schema.VString "CONFIGURED") /\
    schema.Get d' "idp_metadata_url" =
      Some (schema.VString "https://idp.example/metadata") /\
    schema.Get d' "email_assertion" = None.
Proof.
  destruct (Read_stores_configuration (sample_grafana.conn sample_grafana.complete)
              sample_grafana.stored sample_grafana.complete
              {| grafana.AllowedOrganizations := None;
                 grafana.AssertionAttributes_ := Some grafana.emptyAssertionAttributes;
                 grafana.IdpMetadata_ :=
                   Some {| grafana.Url := Some "https://idp.example/metadata";
                           grafana.Xml := None |};
                 grafana.LoginValidityDuration := None;
                 grafana.RoleValues_ :=
                   Some {| grafana.Admin := None; grafana.Editor := Some ["editor"] |} |}
              {| grafana.Admin := None; grafana.Editor := Some ["editor"] |}
              grafana.emptyAssertionAttributes
              {| grafana.Url := Some "https://idp.example/metadata"; grafana.Xml := None |}
              eq_refl eq_refl eq_refl eq_refl eq_refl)
    as (d' & Hread & Hid & Heditor & Hstatus & _ & _ & Hemail & _ & Hurl & _).
  exists d'. repeat split; assumption.
Defined.
